(** * Sheets-to-Discord: the embed manager, embedded and checked

    A shallow embedding of [discord_embed_manager.py] (the cell parser
    [parse_json_cell], the URL check [validate_url], the tile builder
    [parse_embed_data], the renderer [create_discord_embed], the
    navigation view [EmbedNavigationView] and the entry point
    [display_embeds]) and of the [/test] command of
    [test_sheets-to-discord_bot.py].

    Conventions.
    - A Python [str] is a list of Unicode code points, so [len] is
      [length] and [s[:n]] is [firstn n s].
    - A Python [int] is a [Z]; list positions are [nat].
    - A raised exception is a value of [result]; [try]/[except] is
      [try_except], and [except Exception] is [try_catch]. The
      exceptions that are not [Exception]s come from what is awaited:
      here, from the refresh callback. [json.loads], [int] and the
      read of the sheet are synchronous and raise [Exception]s.
    - Calls on the [logging] module change nothing that is computed and
      are left out; the arguments that only feed log messages are kept
      in the signatures.
    - Calls on the Discord API are recorded, in order, as a list of
      [action]s; they do not fail.
    - [valid_json] follows the words of the specification, not the
      code: it recognises the JSON grammar, to compare [json.loads]
      with.
    - The attribute [message] is kept outside the record of the view:
      the expiry handler [on_timeout] takes whether it is set.
    - Builtins of Python that the module relies on but does not define
      ([json.loads], [int] on a [str], [repr])
      are the fields of the class [Builtins]: every statement holds for
      all of them. *)

From Stdlib Require Import String Ascii DecimalString.
From Stdlib Require Import List ZArith NArith Lia Bool.
Import ListNotations.

Set Warnings "-register-all".
Local Open Scope Z_scope.

(* ================================================================= *)
(** ** Python strings *)

Definition pystr := list N.

(** A literal, character by character. *)
Definition u (s : string) : pystr := map N_of_ascii (list_ascii_of_string s).

Definition len {A : Type} (l : list A) : Z := Z.of_nat (length l).

(** [s.startswith(prefix)] *)
Fixpoint startswith (s prefix : pystr) {struct prefix} : bool :=
  match prefix, s with
  | [], _ => true
  | p :: prefix', c :: s' => (c =? p)%N && startswith s' prefix'
  | _ :: _, [] => false
  end.

(** The characters [str.strip()] removes: those for which
    [str.isspace()] holds. *)
Definition isspace (c : N) : bool :=
  ((0x09 <=? c) && (c <=? 0x0D) || (0x1C <=? c) && (c <=? 0x20)
   || (c =? 0x85) || (c =? 0xA0) || (c =? 0x1680)
   || (0x2000 <=? c) && (c <=? 0x200A)
   || (c =? 0x2028) || (c =? 0x2029) || (c =? 0x202F)
   || (c =? 0x205F) || (c =? 0x3000))%N.

Fixpoint lstrip (s : pystr) : pystr :=
  match s with
  | c :: s' => if isspace c then lstrip s' else s
  | [] => []
  end.

Definition rstrip (s : pystr) : pystr := rev (lstrip (rev s)).

(** [s.strip()] *)
Definition strip (s : pystr) : pystr := rstrip (lstrip s).

(** Truth value of a string or list: non-empty. *)
Definition nonempty {A : Type} (l : list A) : bool :=
  match l with [] => false | _ :: _ => true end.

(** [a or b] on strings. *)
Definition str_or (a b : pystr) : pystr := if nonempty a then a else b.

(** [str(n)] for an [int]. *)
Definition str_of_Z (z : Z) : pystr := u (NilZero.string_of_int (Z.to_int z)).

(** The zero-width space, written \u200b in the source. *)
Definition zwsp : pystr := [0x200B%N].

(* ================================================================= *)
(** ** Exceptions and results *)

Inductive exn_kind :=
| ValueError | TypeError | OverflowError | IndexError
| JSONDecodeError | RecursionError | OtherException
| CancelledError | KeyboardInterrupt | SystemExit.

(** Whether the class derives from [Exception], which is what
    [except Exception] catches. [asyncio.CancelledError],
    [KeyboardInterrupt] and [SystemExit] derive from [BaseException]
    only. *)
Definition is_Exception (k : exn_kind) : bool :=
  match k with
  | CancelledError | KeyboardInterrupt | SystemExit => false
  | _ => true
  end.

Record exn := Exn { exn_kind_of : exn_kind; exn_msg : pystr }.

Inductive result (A : Type) :=
| Ok (a : A)
| Raise (e : exn).
Arguments Ok {A} a.
Arguments Raise {A} e.

Definition bind {A B : Type} (c : result A) (k : A -> result B) : result B :=
  match c with
  | Ok a => k a
  | Raise e => Raise e
  end.

Declare Scope result_scope.
Delimit Scope result_scope with result.
Notation "x <- c ;; k" := (bind c (fun x => k))
  (at level 61, c at next level, right associativity) : result_scope.

Definition exn_kind_eqb (a b : exn_kind) : bool :=
  match a, b with
  | ValueError, ValueError | TypeError, TypeError
  | OverflowError, OverflowError | IndexError, IndexError
  | JSONDecodeError, JSONDecodeError | RecursionError, RecursionError
  | OtherException, OtherException | CancelledError, CancelledError
  | KeyboardInterrupt, KeyboardInterrupt | SystemExit, SystemExit => true
  | _, _ => false
  end.

(** [try: c  except (k1, k2, ...): h] *)
Definition try_except {A : Type} (c : result A) (kinds : list exn_kind)
    (h : result A) : result A :=
  match c with
  | Ok a => Ok a
  | Raise e =>
      if existsb (exn_kind_eqb (exn_kind_of e)) kinds then h else Raise e
  end.

(* ================================================================= *)
(** ** Python values, as [json.loads] builds them *)

(** A float is kept as far as [bool] and [int] look at it:
    [FFinite m e] is [m * 2^e]. *)
Inductive pyfloat :=
| FFinite (m e : Z)
| FInf (negative : bool)
| FNaN.

Inductive pyobj :=
| PNone
| PBool (b : bool)
| PInt (z : Z)
| PFloat (f : pyfloat)
| PStr (s : pystr)
| PList (items : list pyobj)
| PDict (items : list (pystr * pyobj)).

(** [isinstance(x, list)] *)
Definition is_list (x : pyobj) : bool :=
  match x with PList _ => true | _ => false end.

(** Truth value, as [if x] and [not x] take it. *)
Definition truthy (x : pyobj) : bool :=
  match x with
  | PNone => false
  | PBool b => b
  | PInt z => negb (z =? 0)
  | PFloat (FFinite m _) => negb (m =? 0)
  | PFloat _ => true
  | PStr s => nonempty s
  | PList l => nonempty l
  | PDict d => nonempty d
  end.

(** [int(x)] on a float: truncation toward zero. *)
Definition int_of_float (f : pyfloat) : result Z :=
  match f with
  | FFinite m e => Ok (if 0 <=? e then m * 2 ^ e else Z.quot m (2 ^ (- e)))
  | FInf _ => Raise (Exn OverflowError (u "cannot convert float infinity to integer"))
  | FNaN => Raise (Exn ValueError (u "cannot convert float NaN to integer"))
  end.

Class Builtins := {
  (** [int(s)] on a [str]; [None] when it raises [ValueError]. *)
  int_of_str : pystr -> option Z;
  (** [repr(x)]; [str] falls back on it for floats, lists and dicts. *)
  repr : pyobj -> pystr;
  (** [json.loads(s)] *)
  json_loads : pystr -> result pyobj
}.

Section Python.

Context {B : Builtins}.

(** [str(x)] *)
Definition py_str (x : pyobj) : pystr :=
  match x with
  | PNone => u "None"
  | PBool true => u "True"
  | PBool false => u "False"
  | PInt z => str_of_Z z
  | PStr s => s
  | PFloat _ | PList _ | PDict _ => repr x
  end.

(** [int(x)] *)
Definition py_int (x : pyobj) : result Z :=
  match x with
  | PNone => Raise (Exn TypeError (u "int() argument must be a string, a bytes-like object or a real number, not 'NoneType'"))
  | PBool b => Ok (if b then 1 else 0)
  | PInt z => Ok z
  | PFloat f => int_of_float f
  | PStr s =>
      match int_of_str s with
      | Some z => Ok z
      | None =>
          Raise (Exn ValueError
                   (u "invalid literal for int() with base 10: " ++ repr x))
      end
  | PList _ => Raise (Exn TypeError (u "int() argument must be a string, a bytes-like object or a real number, not 'list'"))
  | PDict _ => Raise (Exn TypeError (u "int() argument must be a string, a bytes-like object or a real number, not 'dict'"))
  end.

(* ================================================================= *)
(** ** [parse_json_cell] *)

(** The loop [for row in data: if not isinstance(row, list): return None]
    that ends in [return data]: the rows of [data], when each is a list. *)
Fixpoint rows_of (data : list pyobj) : option (list (list pyobj)) :=
  match data with
  | [] => Some []
  | PList row :: data' =>
      match rows_of data' with
      | Some rows => Some (row :: rows)
      | None => None
      end
  | _ :: _ => None
  end.

(** The two handlers of lines 61 and 65 return [None] both:
    [json.loads] awaits nothing, what it raises is an [Exception], and
    [except Exception] catches it. *)
Definition parse_json_cell (cell_value : pystr) : option (list (list pyobj)) :=
  match json_loads cell_value with
  | Ok data =>
      match data with
      | PList rows => rows_of rows
      | _ => None
      end
  | Raise _ => None
  end.

(* ================================================================= *)
(** ** [validate_url] *)

Definition validate_url (url : pyobj) (field_name : pystr) (row_idx : nat)
    : option pystr :=
  if negb (truthy url) then None
  else
    let url_str := strip (py_str url) in
    if negb (nonempty url_str) then None
    else if negb (startswith url_str (u "http://")
                  || startswith url_str (u "https://")) then None
    else Some url_str.

End Python.

(* ================================================================= *)
(** ** [parse_embed_data] *)

(** One entry of ["fields"]: the dict [{"name": name, "value": value}]. *)
Record field := Field { name : pystr; value : pystr }.

(** The embed specification appended to [embeds]. *)
Record embed_spec := EmbedSpec {
  title : pystr;
  description : pystr;
  title_url : option pystr;
  color : Z;
  author : option pystr;
  author_url : option pystr;
  footer : pystr;
  fields : list field
}.

(** [row[i]], read where the source has checked [i < len(row)]. *)
Definition item (row : list pyobj) (i : nat) : pyobj := nth i row PNone.

Section Builder.

Context {B : Builtins}.
Local Open Scope result_scope.

(** The inner loop over [check_idx in range(name_idx, min(len(row), 57))]:
    [all_remaining_empty] when it ends. [stop - check_idx] columns are
    left to look at. *)
Fixpoint all_remaining_empty_from (row : list pyobj) (check_idx n : nat) : bool :=
  match n with
  | O => true
  | S n' =>
      if truthy (item row check_idx) then false
      else all_remaining_empty_from row (S check_idx) n'
  end.

Definition all_remaining_empty (row : list pyobj) (name_idx : nat) : bool :=
  all_remaining_empty_from row name_idx (Nat.min (length row) 57 - name_idx).

(** How one turn of the loop over [field_idx] ends. *)
Inductive field_turn :=
| BreakNoColumn                      (* line 169 *)
| BreakAllEmpty                      (* line 179 *)
| BreakLimit                         (* line 199 *)
| Append (f : field) (total_chars : Z).  (* lines 201-202 *)

(** [name] and [value] of the pair, once truncated (lines 181-188). *)
Definition pair_name (row : list pyobj) (field_idx : nat) : pystr :=
  let name_idx := (7 + field_idx * 2)%nat in
  let name := if (name_idx <? length row)%nat
              then py_str (item row name_idx) else [] in
  firstn 256 name.

Definition pair_value (row : list pyobj) (field_idx : nat) : pystr :=
  let value_idx := (8 + field_idx * 2)%nat in
  let value := if (value_idx <? length row)%nat
               then py_str (item row value_idx) else [] in
  firstn 1024 value.

Definition field_turn_at (row : list pyobj) (total_chars : Z) (field_idx : nat)
    : field_turn :=
  let name_idx := (7 + field_idx * 2)%nat in
  if (length row <=? name_idx)%nat then BreakNoColumn
  else if all_remaining_empty row name_idx then BreakAllEmpty
  else
    let name := pair_name row field_idx in
    let value := pair_value row field_idx in
    let field_chars := len name + len value in
    if total_chars + field_chars >? 6000 then BreakLimit
    else Append (Field name value) (total_chars + field_chars).

(** The turn leaves the loop and appends nothing. *)
Definition stops (t : field_turn) : bool :=
  match t with
  | Append _ _ => false
  | BreakNoColumn | BreakAllEmpty | BreakLimit => true
  end.

(** The loop [for field_idx in range(25)], on the indices still to run,
    with the two variables it updates. *)
Fixpoint scan_fields (row : list pyobj) (idxs : list nat)
    (total_chars : Z) (fields : list field) : list field :=
  match idxs with
  | [] => fields
  | field_idx :: idxs' =>
      match field_turn_at row total_chars field_idx with
      | Append f total_chars' =>
          scan_fields row idxs' total_chars' (fields ++ [f])
      | _ => fields
      end
  end.

(** [total_chars] as the loop over the fields starts. *)
Definition fixed_chars (title description footer : pystr)
    (author : option pystr) : Z :=
  let total_chars := len title + len description + len footer in
  match author with
  | Some a => if nonempty a then total_chars + len a else total_chars
  | None => total_chars
  end.

(** The body of the loop over the rows, past the test on [len(row)]. *)
Definition embed_of_row (row_idx : nat) (row : list pyobj) : result embed_spec :=
  let title := if (0 <? length row)%nat
               then firstn 256 (py_str (item row 0)) else [] in
  let description := if (1 <? length row)%nat
                     then firstn 4096 (py_str (item row 1)) else [] in
  let title_url :=
    validate_url (if (2 <? length row)%nat then item row 2 else PNone)
                 (u "TitleURL") row_idx in
  color <- try_except
             (if (3 <? length row)%nat && truthy (item row 3)
              then py_int (item row 3) else Ok 0)
             [ValueError; TypeError]
             (Ok 0) ;;
  let author := if (4 <? length row)%nat && truthy (item row 4)
                then Some (firstn 256 (py_str (item row 4))) else None in
  let author_url :=
    validate_url (if (5 <? length row)%nat then item row 5 else PNone)
                 (u "AuthorURL") row_idx in
  let footer := if (6 <? length row)%nat
                then firstn 2048 (py_str (item row 6)) else [] in
  let total_chars := fixed_chars title description footer author in
  let fields := scan_fields row (seq 0 25) total_chars [] in
  Ok (EmbedSpec title description title_url color author author_url
                footer fields).

(** The loop [for row_idx, row in enumerate(data)]. *)
Fixpoint parse_rows (row_idx : nat) (data : list (list pyobj))
    (embeds : list embed_spec) : result (list embed_spec) :=
  match data with
  | [] => Ok embeds
  | row :: data' =>
      if (length row <? 7)%nat then parse_rows (S row_idx) data' embeds
      else
        spec <- embed_of_row row_idx row ;;
        parse_rows (S row_idx) data' (embeds ++ [spec])
  end.

Definition parse_embed_data (data : list (list pyobj))
    : result (list embed_spec) :=
  if negb (nonempty data) || (len data =? 0) then Ok []
  else parse_rows 0 data [].

End Builder.

(** The characters of a specification that the limit of 6000 is about:
    title, description, footer, author and every field name and value. *)
Definition fields_chars (fs : list field) : Z :=
  fold_right (fun f acc => len (name f) + len (value f) + acc) 0 fs.

Definition spec_chars (s : embed_spec) : Z :=
  len (title s) + len (description s) + len (footer s)
  + match author s with Some a => len a | None => 0 end
  + fields_chars (fields s).

(* ================================================================= *)
(** ** [create_discord_embed] *)

(** What [embed.add_field(name=..., value=..., inline=...)] adds. *)
Record embed_field := EmbedField {
  field_name : pystr;
  field_value : pystr;
  inline : bool
}.

(** A [discord.Embed], as far as this module fills it. *)
Record Embed := MkEmbed {
  embed_title : option pystr;
  embed_description : option pystr;
  embed_url : option pystr;
  embed_color : Z;
  embed_author : option (pystr * option pystr);   (* name, url *)
  embed_footer : option pystr;
  embed_fields : list embed_field
}.

(** Truth value of an optional string: [None] and [""] are false. *)
Definition opt_truthy (o : option pystr) : bool :=
  match o with Some s => nonempty s | None => false end.

(** [s or None] *)
Definition or_None (s : pystr) : option pystr :=
  if nonempty s then Some s else None.

(** [o or d] on an optional string. *)
Definition opt_or (o : option pystr) (d : pystr) : pystr :=
  match o with Some s => str_or s d | None => d end.

Definition tilde : N := 126%N.

(** One turn of the loop over [embed_spec["fields"]]: the field that
    is added, or [None] for [continue]. *)
Definition add_field_of (f : field) : option embed_field :=
  if negb (nonempty (name f)) && negb (nonempty (value f)) then None
  else
    let field_name := name f in
    let field_value := value f in
    let '(inline, field_name) :=
      if startswith field_name [tilde] then (false, skipn 1 field_name)
      else (true, field_name) in
    Some (EmbedField (str_or field_name zwsp) (str_or field_value zwsp) inline).

Fixpoint add_fields (fs : list field) : list embed_field :=
  match fs with
  | [] => []
  | f :: fs' =>
      match add_field_of f with
      | Some ef => ef :: add_fields fs'
      | None => add_fields fs'
      end
  end.

Definition create_discord_embed (embed_spec : embed_spec) : Embed :=
  MkEmbed
    (or_None (title embed_spec))
    (or_None (description embed_spec))
    (title_url embed_spec)
    (color embed_spec)
    (if opt_truthy (author embed_spec) || opt_truthy (author_url embed_spec)
     then Some (opt_or (author embed_spec) zwsp, author_url embed_spec)
     else None)
    (if nonempty (footer embed_spec) then Some (footer embed_spec) else None)
    (add_fields (fields embed_spec)).

(* ================================================================= *)
(** ** [EmbedNavigationView] *)

Inductive button_style := secondary | primary | success.

(** The coroutine a button calls. *)
Inductive handler :=
| h_goto_top | h_previous_page | h_next_page | h_goto_bottom | h_refresh_data.

Record button := Button {
  label : pystr;
  style : button_style;
  disabled : bool;
  callback : option handler
}.

(** The awaited calls, in order: those on the interaction, and that of
    the refresh callback. *)
Inductive action :=
| refresh_callback_call
| response_send_message (content : pystr) (ephemeral : bool)
| response_edit_message (embed : Embed) (view : list button)
| response_defer (ephemeral : bool)
| followup_send (content : pystr) (ephemeral : bool)
| followup_send_embed (embed : Embed) (view : option (list button))
                      (ephemeral : bool)
| edit_original_response (embed : Embed) (view : option (list button)).

(** [l[i]] on a list, with an [int] index. *)
Definition py_getitem {A : Type} (l : list A) (i : Z) : result A :=
  let j := if i <? 0 then i + len l else i in
  if (j <? 0) || (len l <=? j) then
    Raise (Exn IndexError (u "list index out of range"))
  else
    match nth_error l (Z.to_nat j) with
    | Some a => Ok a
    | None => Raise (Exn IndexError (u "list index out of range"))
    end.

(** The cross mark that opens the notices, U+274C. *)
Definition cross_mark : pystr := [0x274C%N].

Definition not_your_view : pystr := cross_mark ++ u " Not your view".

Section View.

(** What the refresh callback reads when it is awaited: the state of
    the data source at that time. *)
Variable World : Type.

Context {B : Builtins}.

(** A refresh callback: no argument, a string or [None] or an
    exception when awaited. *)
Definition refresh_fn := World -> result (option pystr).

Record EmbedNavigationView := View {
  embeds_spec : list embed_spec;
  current_page : Z;
  total_pages : Z;
  user_id : Z;
  refresh_callback : option refresh_fn;
  children : list button
}.

(** What [interaction.user.id] is. *)
Record Interaction := MkInteraction { interaction_user_id : Z }.

(** A coroutine of the view: from the attributes of [self] to the
    attributes afterwards, the calls made, and the return or the
    exception. *)
Record run (A : Type) := Run {
  self_after : EmbedNavigationView;
  calls : list action;
  returned : result A
}.
Arguments Run {A} _ _ _.
Arguments self_after {A} _.
Arguments calls {A} _.
Arguments returned {A} _.

Definition M (A : Type) := EmbedNavigationView -> run A.

Definition ret {A : Type} (a : A) : M A := fun self => Run self [] (Ok a).

Definition bindM {A C : Type} (c : M A) (k : A -> M C) : M C :=
  fun self =>
    match c self with
    | Run self1 calls1 (Ok a) =>
        match k a self1 with
        | Run self2 calls2 r => Run self2 (calls1 ++ calls2) r
        end
    | Run self1 calls1 (Raise e) => Run self1 calls1 (Raise e)
    end.

Declare Scope view_scope.
Delimit Scope view_scope with view.
Notation "x <- c ;; k" := (bindM c (fun x => k))
  (at level 61, c at next level, right associativity) : view_scope.
Notation "c ;; k" := (bindM c (fun _ => k))
  (at level 61, right associativity) : view_scope.
Local Open Scope view_scope.

Definition get : M EmbedNavigationView := fun self => Run self [] (Ok self).
Definition put (v : EmbedNavigationView) : M unit := fun _ => Run v [] (Ok tt).
Definition await (a : action) : M unit := fun self => Run self [a] (Ok tt).
Definition lift {A : Type} (c : result A) : M A := fun self => Run self [] c.

(** [await refresh_callback()], with the data source in state [w]. *)
Definition await_callback (refresh_callback : refresh_fn) (w : World)
    : M (option pystr) :=
  fun self => Run self [refresh_callback_call] (refresh_callback w).

(** [try: c  except Exception as e: h e]: an exception that is not an
    [Exception] goes through. *)
Definition try_catch {A : Type} (c : M A) (h : exn -> M A) : M A :=
  fun self =>
    match c self with
    | Run self1 calls1 (Ok a) => Run self1 calls1 (Ok a)
    | Run self1 calls1 (Raise e) =>
        if is_Exception (exn_kind_of e) then
          match h e self1 with
          | Run self2 calls2 r => Run self2 (calls1 ++ calls2) r
          end
        else Run self1 calls1 (Raise e)
    end.

Definition set_current_page (p : Z) : M unit :=
  self <- get ;;
  put (View (embeds_spec self) p (total_pages self) (user_id self)
            (refresh_callback self) (children self)).

Definition set_embeds_spec (specs : list embed_spec) : M unit :=
  self <- get ;;
  put (View specs (current_page self) (total_pages self) (user_id self)
            (refresh_callback self) (children self)).

Definition set_total_pages (n : Z) : M unit :=
  self <- get ;;
  put (View (embeds_spec self) (current_page self) n (user_id self)
            (refresh_callback self) (children self)).

Definition set_children (items : list button) : M unit :=
  self <- get ;;
  put (View (embeds_spec self) (current_page self) (total_pages self)
            (user_id self) (refresh_callback self) items).

(** The items [update_buttons] adds after [clear_items()]. *)
Definition buttons_for (current_page total_pages : Z) (has_refresh : bool)
    : list button :=
  [ Button (u "<<") secondary (current_page =? 0) (Some h_goto_top);
    Button (u "<") primary (current_page =? 0) (Some h_previous_page);
    Button (str_of_Z (current_page + 1) ++ u "/" ++ str_of_Z total_pages)
           secondary true None;
    Button (u ">") primary (total_pages - 1 <=? current_page)
           (Some h_next_page);
    Button (u ">>") secondary (total_pages - 1 <=? current_page)
           (Some h_goto_bottom) ]
  ++ (if has_refresh
      then [Button [0x1F504%N] success false (Some h_refresh_data)]
      else []).

Definition update_buttons : M unit :=
  self <- get ;;
  set_children
    (buttons_for (current_page self) (total_pages self)
       (match refresh_callback self with Some _ => true | None => false end)).

(** [EmbedNavigationView(embeds_spec, current_page, user_id, refresh_callback)] *)
Definition new_view (embeds_spec : list embed_spec) (current_page : Z)
    (user_id : Z) (refresh_callback : option refresh_fn)
    : EmbedNavigationView :=
  self_after
    (update_buttons
       (View embeds_spec current_page (len embeds_spec) user_id
             refresh_callback [])).

(** [embed = create_discord_embed(self.embeds_spec[self.current_page])] *)
Definition current_embed : M Embed :=
  self <- get ;;
  spec <- lift (py_getitem (embeds_spec self) (current_page self)) ;;
  ret (create_discord_embed spec).

(** [await interaction.response.edit_message(embed=embed, view=self)] *)
Definition edit_message (embed : Embed) : M unit :=
  self <- get ;;
  await (response_edit_message embed (children self)).

Definition goto_top (interaction : Interaction) : M unit :=
  self <- get ;;
  if negb (interaction_user_id interaction =? user_id self) then
    await (response_send_message not_your_view true)
  else
    set_current_page 0 ;;
    embed <- current_embed ;;
    update_buttons ;;
    edit_message embed.

Definition previous_page (interaction : Interaction) : M unit :=
  self <- get ;;
  if negb (interaction_user_id interaction =? user_id self) then
    await (response_send_message not_your_view true)
  else if current_page self >? 0 then
    set_current_page (current_page self - 1) ;;
    embed <- current_embed ;;
    update_buttons ;;
    edit_message embed
  else
    await (response_defer false).

Definition next_page (interaction : Interaction) : M unit :=
  self <- get ;;
  if negb (interaction_user_id interaction =? user_id self) then
    await (response_send_message not_your_view true)
  else if current_page self <? total_pages self - 1 then
    set_current_page (current_page self + 1) ;;
    embed <- current_embed ;;
    update_buttons ;;
    edit_message embed
  else
    await (response_defer false).

Definition goto_bottom (interaction : Interaction) : M unit :=
  self <- get ;;
  if negb (interaction_user_id interaction =? user_id self) then
    await (response_send_message not_your_view true)
  else
    set_current_page (total_pages self - 1) ;;
    embed <- current_embed ;;
    update_buttons ;;
    edit_message embed.

(** [discord.Embed(title="No Data", description="Nothing to display",
    color=discord.Color.orange())] *)
Definition no_data_embed : Embed :=
  MkEmbed (Some (u "No Data")) (Some (u "Nothing to display")) None
          0xe67e22 None None [].

Definition refresh_data (w : World) (interaction : Interaction) : M unit :=
  self <- get ;;
  if negb (interaction_user_id interaction =? user_id self) then
    await (response_send_message not_your_view true)
  else
    match refresh_callback self with
    | None => await (response_defer false)
    | Some refresh_callback =>
        await (response_defer false) ;;
        try_catch
          (json_string <- await_callback refresh_callback w ;;
           match json_string with
           | None | Some [] =>
               await (followup_send
                        (cross_mark ++ u " Refresh failed: No data returned")
                        true)
           | Some json_string =>
               match parse_json_cell json_string with
               | None | Some [] =>
                   await (followup_send
                            (cross_mark ++ u " Refresh failed: Invalid JSON")
                            true)
               | Some data =>
                   new_embeds_spec <- lift (parse_embed_data data) ;;
                   if negb (nonempty new_embeds_spec) then
                     await (edit_original_response no_data_embed None)
                   else
                     set_embeds_spec new_embeds_spec ;;
                     set_total_pages (len new_embeds_spec) ;;
                     self <- get ;;
                     (if current_page self >=? total_pages self
                      then set_current_page (total_pages self - 1)
                      else ret tt) ;;
                     embed <- current_embed ;;
                     update_buttons ;;
                     self <- get ;;
                     await (edit_original_response embed
                                                   (Some (children self)))
               end
           end)
          (fun e =>
             await (followup_send
                      (cross_mark ++ u " Refresh failed: " ++ exn_msg e) true))
    end.

(* ================================================================= *)
(** ** [display_embeds] *)

(** [discord.Embed(title="Error", description=..., color=discord.Color.red())] *)
Definition error_embed (description : pystr) : Embed :=
  MkEmbed (Some (u "Error")) (Some description) None 0xe74c3c None None [].

(** The calls made and, when the tiles are sent, the view that is
    attached to the message. *)
Definition display_embeds (w : World) (interaction : Interaction)
    (json_string : option pystr) (refresh_callback : option refresh_fn)
    : list action * result (option EmbedNavigationView) :=
  let '(fetch_calls, fetched) :=
    match refresh_callback with
    | Some callback =>
        if negb (opt_truthy json_string)
        then ([refresh_callback_call], callback w)
        else ([], Ok json_string)
    | None => ([], Ok json_string)
    end in
  match fetched with
  | Raise e =>
      if is_Exception (exn_kind_of e) then
        (fetch_calls ++
         [followup_send_embed
            (error_embed (u "Failed to fetch data:" ++ [10%N] ++ exn_msg e))
            None true],
         Ok None)
      else (fetch_calls, Raise e)
  | Ok None | Ok (Some []) =>
      (fetch_calls ++
       [followup_send_embed (error_embed (u "No data provided")) None true],
       Ok None)
  | Ok (Some json_string) =>
      match parse_json_cell json_string with
      | None | Some [] =>
          (fetch_calls ++
           [followup_send_embed (error_embed (u "Failed to parse JSON data"))
                                None true],
           Ok None)
      | Some data =>
          match parse_embed_data data with
          | Raise e => (fetch_calls, Raise e)
          | Ok embeds_spec =>
              if negb (nonempty embeds_spec) then
                (fetch_calls ++
                 [followup_send_embed no_data_embed None true],
                 Ok None)
              else
                let current_page := 0 in
                match py_getitem embeds_spec current_page with
                | Raise e => (fetch_calls, Raise e)
                | Ok spec =>
                    let embed := create_discord_embed spec in
                    let view :=
                      new_view embeds_spec current_page
                               (interaction_user_id interaction)
                               refresh_callback in
                    (fetch_calls ++
                     [followup_send_embed embed (Some (children view)) true],
                     Ok (Some view))
                end
          end
      end
  end.

End View.

Arguments View {World} _ _ _ _ _ _.
Arguments embeds_spec {World} _.
Arguments current_page {World} _.
Arguments total_pages {World} _.
Arguments user_id {World} _.
Arguments refresh_callback {World} _.
Arguments children {World} _.
Arguments Run {World A} _ _ _.
Arguments self_after {World A} _.
Arguments calls {World A} _.
Arguments returned {World A} _.
Arguments new_view {World} _ _ _ _.
Arguments goto_top {World} _ _.
Arguments previous_page {World} _ _.
Arguments next_page {World} _ _.
Arguments goto_bottom {World} _ _.
Arguments refresh_data {World B} _ _ _.
Arguments display_embeds {World B} _ _ _ _.

(* ================================================================= *)
(** ** The [/test] command of the test bot *)

(** How Python binds the arguments of a call [f(a1, ..., an, k1=..., ...)]
    to the parameters of [def f(p1, ..., pm=...)] before the body runs. *)
Record parameter := Param { param_name : string; has_default : bool }.

Definition quoted (s : string) : pystr := u "'" ++ u s ++ u "'".

Fixpoint index_of (k : string) (params : list parameter) : option nat :=
  match params with
  | [] => None
  | p :: params' =>
      if String.eqb (param_name p) k then Some O
      else option_map S (index_of k params')
  end.

(** The keywords, in the order written: each must name a parameter
    that no positional argument has filled. *)
Fixpoint bind_keywords (fname : string) (params : list parameter)
    (npos : nat) (keywords : list string) : result unit :=
  match keywords with
  | [] => Ok tt
  | k :: keywords' =>
      match index_of k params with
      | None =>
          Raise (Exn TypeError
                   (u fname ++ u "() got an unexpected keyword argument "
                    ++ quoted k))
      | Some i =>
          if (i <? npos)%nat then
            Raise (Exn TypeError
                     (u fname ++ u "() got multiple values for argument "
                      ++ quoted k))
          else bind_keywords fname params npos keywords'
      end
  end.

(** The names of the parameters left without a value. *)
Fixpoint missing_from (i : nat) (params : list parameter) (npos : nat)
    (keywords : list string) : list string :=
  match params with
  | [] => []
  | p :: params' =>
      let rest := missing_from (S i) params' npos keywords in
      if (i <? npos)%nat || has_default p
         || existsb (String.eqb (param_name p)) keywords
      then rest else param_name p :: rest
  end.

Definition name_list (names : list string) : pystr :=
  match names with
  | [] => []
  | [a] => quoted a
  | [a; b] => quoted a ++ u " and " ++ quoted b
  | a :: ((_ :: _ :: _) as rest) =>
      quoted a ++ u ", " ++
      (fix tail (l : list string) : pystr :=
         match l with
         | [] => []
         | [z] => u "and " ++ quoted z
         | y :: l' => quoted y ++ u ", " ++ tail l'
         end) rest
  end.

Definition bind_arguments (fname : string) (params : list parameter)
    (npos : nat) (keywords : list string) : result unit :=
  bind (bind_keywords fname params npos keywords) (fun _ =>
  let total := length params in
  let defaults := length (filter has_default params) in
  if (total <? npos)%nat then
    Raise (Exn TypeError
             (u fname ++ u "() takes "
              ++ (if (0 <? defaults)%nat
                  then u "from " ++ str_of_Z (Z.of_nat (total - defaults))
                       ++ u " to " ++ str_of_Z (Z.of_nat total)
                  else str_of_Z (Z.of_nat total))
              ++ u " positional argument"
              ++ (if (0 <? defaults)%nat || negb (total =? 1)%nat
                  then u "s" else [])
              ++ u " but " ++ str_of_Z (Z.of_nat npos)
              ++ (if (npos =? 1)%nat then u " was" else u " were")
              ++ u " given"))
  else
    match missing_from 0 params npos keywords with
    | [] => Ok tt
    | missing =>
        Raise (Exn TypeError
                 (u fname ++ u "() missing "
                  ++ str_of_Z (Z.of_nat (length missing))
                  ++ u " required positional argument"
                  ++ (if (length missing =? 1)%nat then [] else u "s")
                  ++ u ": " ++ name_list missing))
    end).

(** [async def display_embeds(interaction, json_string=None,
    refresh_callback=None)] *)
Definition display_embeds_params : list parameter :=
  [ Param "interaction" false;
    Param "json_string" true;
    Param "refresh_callback" true ].

(** What [spreadsheet.worksheet("Sheet1").acell('A1').value] gives when
    [fetch_sheet_data] runs: the content of the cell, [None] for an
    empty cell, or an exception. The read is a synchronous call of
    [gspread]: what it raises is an [Exception], and the handlers of
    lines 147 and 150 return [None] both. *)
Definition sheet := result (option pystr).

Definition fetch_sheet_data : refresh_fn sheet :=
  fun w =>
    match w with
    | Ok json_string =>
        if negb (opt_truthy json_string) then Ok None else Ok json_string
    | Raise _ => Ok None
    end.

Definition test_command {B : Builtins} (w : sheet) (interaction : Interaction)
    : list action * result (option (EmbedNavigationView sheet)) :=
  let deferred := [response_defer true] in
  match bind_arguments "display_embeds" display_embeds_params 1
          ["json_string"; "refresh_callback"; "additional_buttons"]%string with
  | Raise e => (deferred, Raise e)
  | Ok _ =>
      let '(calls, returned) :=
        display_embeds w interaction None (Some fetch_sheet_data) in
      (deferred ++ calls, returned)
  end.

(* ================================================================= *)
(** ** Values to run the definitions on *)

(** A string cell. *)
Definition cell (s : string) : pyobj := PStr (u s).

(** Decimal digits only, for [int] on a string. *)
Definition digits_to_Z (s : pystr) : option Z :=
  match s with
  | [] => None
  | _ :: _ =>
      fold_left
        (fun acc c =>
           match acc with
           | Some n =>
               if ((48 <=? c) && (c <=? 57))%N
               then Some (10 * n + Z.of_N (c - 48))
               else None
           | None => None
           end)
        s (Some 0)
  end.

(** A JSON string literal: the text between two quotation marks. *)
Definition json_str (s : string) : pystr := [34%N] ++ u s ++ [34%N].

(** The raw text of the first scenario of the specification. *)
Definition scenario_text : pystr :=
  u "[[" ++ json_str "A" ++ u "," ++ json_str "B" ++ u "," ++ json_str ""
  ++ u "," ++ json_str "0" ++ u "," ++ json_str "" ++ u "," ++ json_str ""
  ++ u "," ++ json_str "F" ++ u "]]".

(** Builtins that know the texts [[]], [[[]]], [[1]], [{}], [[[NaN]]]
    and [scenario_text]; [json.loads] decodes the constant [NaN] to
    the float [nan]. *)
Definition sample_builtins : Builtins := {|
  int_of_str := digits_to_Z;
  repr := fun _ => u "<object>";
  json_loads := fun s =>
    if list_eq_dec N.eq_dec s scenario_text then
      Ok (PList [PList [cell "A"; cell "B"; cell ""; cell "0"; cell "";
                        cell ""; cell "F"]])
    else if list_eq_dec N.eq_dec s (u "[]") then Ok (PList [])
    else if list_eq_dec N.eq_dec s (u "[[]]") then Ok (PList [PList []])
    else if list_eq_dec N.eq_dec s (u "[1]") then Ok (PList [PInt 1])
    else if list_eq_dec N.eq_dec s (u "{}") then Ok (PDict [])
    else if list_eq_dec N.eq_dec s (u "[[NaN]]") then
      Ok (PList [PList [PFloat FNaN]])
    else Raise (Exn JSONDecodeError (u "Expecting value: line 1 column 1 (char 0)"))
|}.

(** The row of the first scenario of the specification, with columns
    added at the end. *)
Definition plain_row (more : list pyobj) : list pyobj :=
  [cell "A"; cell "B"; cell ""; cell "0"; cell ""; cell ""; cell "F"] ++ more.

(** A row whose description and footer are as long as they may be. *)
Definition long_row (footer_chars : nat) (more : list pyobj) : list pyobj :=
  [cell ""; PStr (repeat 97%N 4096); cell ""; cell ""; cell ""; cell "";
   PStr (repeat 98%N footer_chars)] ++ more.

(** A row whose colour cell is the float that [1e400] decodes to. *)
Definition infinite_color_row : list pyobj :=
  [cell "a"; cell "b"; cell ""; PFloat (FInf false); cell ""; cell "";
   cell "f"].

(** A view on [n] copies of one tile, owned by user 7, at page [i],
    with a callback that hands over the state of the source. *)
Definition sample_spec : embed_spec :=
  EmbedSpec (u "A") (u "B") None 0 None None (u "F") [].

Definition sample_view (n : nat) (i : Z)
    : EmbedNavigationView (result (option pystr)) :=
  new_view (repeat sample_spec n) i 7 (Some (fun w => w)).

(** A row with every part filled: links with white space around
    them, an integer colour, an author, and one attachment. *)
Definition rich_row : list pyobj :=
  [cell "T"; cell "D"; cell " https://x.org "; PInt 255; cell "Ann";
   cell "http://a"; cell "F"; cell "~N"; cell "V"].

Definition rich_spec : embed_spec :=
  EmbedSpec (u "T") (u "D") (Some (u "https://x.org")) 255 (Some (u "Ann"))
            (Some (u "http://a")) (u "F") [Field (u "~N") (u "V")].

(* ================================================================= *)
(** ** Notions the statements use *)

(** *** Syntactically valid JSON

    The words of the specification, not the code: a recogniser of the
    JSON grammar of RFC 8259, to compare [json.loads] with. A text is
    white space, one value, white space; a value is a string, a
    number, an array, an object, or one of [true], [false], [null]. *)

Definition json_ws (c : N) : bool :=
  (c =? 32)%N || (c =? 9)%N || (c =? 10)%N || (c =? 13)%N.

Fixpoint skip_ws (s : pystr) : pystr :=
  match s with
  | c :: s' => if json_ws c then skip_ws s' else s
  | [] => []
  end.

Definition json_digit (c : N) : bool := (48 <=? c)%N && (c <=? 57)%N.

Definition json_hex (c : N) : bool :=
  json_digit c || ((65 <=? c)%N && (c <=? 70)%N)
  || ((97 <=? c)%N && (c <=? 102)%N).

Fixpoint skip_digits (s : pystr) : pystr :=
  match s with
  | c :: s' => if json_digit c then skip_digits s' else s
  | [] => []
  end.

(** A string, after its opening quote: what follows the closing one.
    A backslash is followed by a quote, a backslash, a slash, one of
    the letters b, f, n, r, t, or the letter u and four hexadecimal
    digits; no control character stands unescaped. *)
Fixpoint json_string_rest (s : pystr) : option pystr :=
  match s with
  | [] => None
  | c :: s1 =>
      if (c =? 34)%N then Some s1
      else if (c =? 92)%N then
        match s1 with
        | [] => None
        | e :: s2 =>
            if (e =? 34)%N || (e =? 92)%N || (e =? 47)%N || (e =? 98)%N
               || (e =? 102)%N || (e =? 110)%N || (e =? 114)%N
               || (e =? 116)%N
            then json_string_rest s2
            else if (e =? 117)%N then
              match s2 with
              | h1 :: h2 :: h3 :: h4 :: s3 =>
                  if json_hex h1 && json_hex h2 && json_hex h3 && json_hex h4
                  then json_string_rest s3 else None
              | _ => None
              end
            else None
        end
      else if (c <? 32)%N then None
      else json_string_rest s1
  end.

(** One digit or more, and what follows them. *)
Definition json_digits (s : pystr) : option pystr :=
  match s with
  | c :: s1 => if json_digit c then Some (skip_digits s1) else None
  | [] => None
  end.

(** A number: an optional minus, [0] or a digit from 1 to 9 and more
    digits, an optional fraction, an optional exponent. *)
Definition json_exponent (s : pystr) : option pystr :=
  match s with
  | c :: s1 =>
      if (c =? 101)%N || (c =? 69)%N then
        match s1 with
        | sign :: s2 =>
            if (sign =? 43)%N || (sign =? 45)%N then json_digits s2
            else json_digits s1
        | [] => None
        end
      else Some s
  | [] => Some s
  end.

Definition json_fraction (s : pystr) : option pystr :=
  match s with
  | c :: s1 =>
      if (c =? 46)%N then
        match json_digits s1 with
        | Some rest => json_exponent rest
        | None => None
        end
      else json_exponent s
  | [] => Some s
  end.

Definition json_number (s : pystr) : option pystr :=
  let unsigned := match s with
                  | c :: s1 => if (c =? 45)%N then s1 else s
                  | [] => s
                  end in
  match unsigned with
  | c :: s1 =>
      if (c =? 48)%N then json_fraction s1
      else if json_digit c then json_fraction (skip_digits s1)
      else None
  | [] => None
  end.

Definition after_literal (literal s : pystr) : option pystr :=
  if startswith s literal then Some (skipn (length literal) s) else None.

(** A value at the head of [s], and what follows it; the elements of
    an array after its bracket, up to the closing one; the members of
    an object after its brace, up to the closing one. [fuel] bounds the
    calls still to make. *)
Fixpoint json_value (fuel : nat) (s : pystr) : option pystr :=
  match fuel with
  | O => None
  | S fuel' =>
      match s with
      | [] => None
      | c :: s1 =>
          if (c =? 34)%N then json_string_rest s1
          else if (c =? 91)%N then
            match skip_ws s1 with
            | d :: s2 =>
                if (d =? 93)%N then Some s2
                else json_elements fuel' (skip_ws s1)
            | [] => None
            end
          else if (c =? 123)%N then
            match skip_ws s1 with
            | d :: s2 =>
                if (d =? 125)%N then Some s2
                else json_members fuel' (skip_ws s1)
            | [] => None
            end
          else if (c =? 116)%N then after_literal (u "true") s
          else if (c =? 102)%N then after_literal (u "false") s
          else if (c =? 110)%N then after_literal (u "null") s
          else json_number s
      end
  end
with json_elements (fuel : nat) (s : pystr) : option pystr :=
  match fuel with
  | O => None
  | S fuel' =>
      match json_value fuel' s with
      | Some rest =>
          match skip_ws rest with
          | d :: rest1 =>
              if (d =? 44)%N then json_elements fuel' (skip_ws rest1)
              else if (d =? 93)%N then Some rest1
              else None
          | [] => None
          end
      | None => None
      end
  end
with json_members (fuel : nat) (s : pystr) : option pystr :=
  match fuel with
  | O => None
  | S fuel' =>
      match s with
      | q :: s1 =>
          if (q =? 34)%N then
            match json_string_rest s1 with
            | Some rest =>
                match skip_ws rest with
                | c :: rest1 =>
                    if (c =? 58)%N then
                      match json_value fuel' (skip_ws rest1) with
                      | Some rest2 =>
                          match skip_ws rest2 with
                          | d :: rest3 =>
                              if (d =? 44)%N
                              then json_members fuel' (skip_ws rest3)
                              else if (d =? 125)%N then Some rest3
                              else None
                          | [] => None
                          end
                      | None => None
                      end
                    else None
                | [] => None
                end
            | None => None
            end
          else None
      | [] => None
      end
  end.

(** The whole text is one JSON value between white space. Every call
    but the first follows a character read, so twice the length of the
    text is fuel enough. *)
Definition valid_json (s : pystr) : bool :=
  match json_value (2 * length s + 2) (skip_ws s) with
  | Some rest => match skip_ws rest with [] => true | _ => false end
  | None => false
  end.

(** The row has at least 7 columns. *)
Definition has_7_columns (row : list pyobj) : bool := (7 <=? length row)%nat.

(** The specification [spec] is built from the row [row]. *)
Definition built_from {B : Builtins} (row : list pyobj) (spec : embed_spec)
    : Prop :=
  exists row_idx, embed_of_row row_idx row = Ok spec.

(** [int] does not overflow on the colour cell: it is not a float
    infinity. *)
Definition color_converts (row : list pyobj) : Prop :=
  forall negative, item row 3 <> PFloat (FInf negative).

(** The text does not start with [http://] or [https://]. *)
Definition no_http_scheme (s : pystr) : Prop :=
  startswith s (u "http://") = false /\ startswith s (u "https://") = false.

(** The invariant of a view: [total_pages] is the number of tiles, and
    [current_page] is the index of one of them. *)
Definition well_formed {World : Type} (v : EmbedNavigationView World) : Prop :=
  total_pages v = len (embeds_spec v)
  /\ 0 <= current_page v < total_pages v.

(** The coroutine returned, and the tiles are those of [v]. *)
Definition keeps_tiles {World : Type} (r : run World unit)
    (v : EmbedNavigationView World) : Prop :=
  returned r = Ok tt
  /\ embeds_spec (self_after r) = embeds_spec v
  /\ total_pages (self_after r) = total_pages v.

(** The tiles and the index of [v'] are those of [v]. *)
Definition same_position {World : Type} (v' v : EmbedNavigationView World)
    : Prop :=
  embeds_spec v' = embeds_spec v /\ current_page v' = current_page v.

(** What a coroutine does with an interaction that is not the
    owner's: one ephemeral notice, nothing changed, a plain return. *)
Definition rejected {World : Type} (v : EmbedNavigationView World)
    : run World unit :=
  Run v [response_send_message not_your_view true] (Ok tt).

(** The pair of columns that the scan reads at [field_idx]. *)
Definition pair_at {B : Builtins} (row : list pyobj) (field_idx : nat) : field :=
  Field (pair_name row field_idx) (pair_value row field_idx).

(** The characters of the pair at [field_idx], once truncated:
    [field_chars] of line 196. *)
Definition pair_chars {B : Builtins} (row : list pyobj) (field_idx : nat)
    : Z :=
  len (pair_name row field_idx) + len (pair_value row field_idx).

(** [total_chars] as the turn for [field_idx] starts, when every pair
    before it has been appended to a total that began at
    [total_chars]. *)
Fixpoint running_total {B : Builtins} (row : list pyobj) (total_chars : Z)
    (field_idx : nat) : Z :=
  match field_idx with
  | O => total_chars
  | S before =>
      running_total row total_chars before + pair_chars row before
  end.

(** The three reasons for the scan to stop at [field_idx] without a
    pair: (a) the name column is at or beyond the end of the row, (b)
    every column from the name column up to [min(len(row), 57)] is
    falsy, (c) the pair would take the running total beyond 6000. *)
Definition stops_at {B : Builtins} (row : list pyobj) (total_chars : Z)
    (field_idx : nat) : Prop :=
  (length row <= 7 + field_idx * 2)%nat
  \/ (forall j, (7 + field_idx * 2 <= j < Nat.min (length row) 57)%nat ->
                truthy (item row j) = false)
  \/ running_total row total_chars field_idx + pair_chars row field_idx
     > 6000.

(** The pair at [field_idx] lies in the row, and some column from its
    name column up to [min(len(row), 57)] is truthy. *)
Definition worth_scanning (row : list pyobj) (field_idx : nat) : Prop :=
  (7 + field_idx * 2 < length row)%nat
  /\ exists j, (7 + field_idx * 2 <= j < Nat.min (length row) 57)%nat
               /\ truthy (item row j) = true.

(** The text starts with [http://] or [https://]. *)
Definition http_scheme (s : pystr) : Prop :=
  startswith s (u "http://") = true \/ startswith s (u "https://") = true.

(* ================================================================= *)
(** ** [on_timeout] *)

(** The call [self.message.edit(embed=embed, view=view)]. *)
Inductive message_call :=
| message_edit (embed : Embed) (view : option (list button)).

(** [embed.set_footer(text=text)] *)
Definition set_footer (embed : Embed) (text : pystr) : Embed :=
  MkEmbed (embed_title embed) (embed_description embed) (embed_url embed)
          (embed_color embed) (embed_author embed) (Some text)
          (embed_fields embed).

(** What the f-string of line 306 puts after the footer: two line
    feeds, the stopwatch (U+23F1, U+FE0F) and the notice. *)
Definition expired_notice : pystr :=
  [10%N; 10%N; 0x23F1%N; 0xFE0F%N]
  ++ u " View expired due to inactivity. Please refresh to continue.".

(** [on_timeout], on a view whose attribute [message] is set
    ([has_message]) or is still [None]. The coroutine changes no
    attribute of the view. Whatever is raised inside its [try] is
    caught and logged, so that it returns in every case; the edit is
    recorded as a call, whether Discord accepts it or not. *)
Definition on_timeout {World : Type} (has_message : bool)
    (self : EmbedNavigationView World) : list message_call * result unit :=
  if has_message then
    match py_getitem (embeds_spec self) (current_page self) with
    | Ok spec =>
        let embed := create_discord_embed spec in
        let original_footer :=
          match embed_footer embed with Some text => text | None => [] end in
        let timeout_footer := original_footer ++ expired_notice in
        let embed := set_footer embed timeout_footer in
        ([message_edit embed None], Ok tt)
    | Raise _ => ([], Ok tt)
    end
  else ([], Ok tt).

(** The text that [display_embeds] goes on with: the one it is given,
    or what the callback returns when none is given and there is a
    callback. *)
Definition initial_text {World : Type} (w : World)
    (json_string : option pystr) (refresh_callback : option (refresh_fn World))
    : result (option pystr) :=
  match refresh_callback with
  | Some callback =>
      if negb (opt_truthy json_string) then callback w else Ok json_string
  | None => Ok json_string
  end.

(** Whether [display_embeds] awaits the callback. *)
Definition fetches {World : Type}
    (json_string : option pystr) (refresh_callback : option (refresh_fn World))
    : bool :=
  match refresh_callback with
  | Some _ => negb (opt_truthy json_string)
  | None => false
  end.

(* ================================================================= *)
(** ** Sessions of a view *)

Section Sessions.

Variable World : Type.
Context {B : Builtins}.

(** The coroutine that [update_buttons] binds to a button, run for an
    interaction while the data source is in state [w]. *)
Definition dispatch (h : handler) (w : World) (interaction : Interaction)
    : M World unit :=
  match h with
  | h_goto_top => goto_top interaction
  | h_previous_page => previous_page interaction
  | h_next_page => next_page interaction
  | h_goto_bottom => goto_bottom interaction
  | h_refresh_data => refresh_data w interaction
  end.

(** A press of a button: which one, by whom, and the state of the data
    source at that time. *)
Record event := Event {
  pressed : handler;
  presser : Interaction;
  source : World
}.

(** The coroutines run for a list of presses, one after the other,
    each on the view as the one before left it. *)
Fixpoint session (events : list event) (v : EmbedNavigationView World)
    : list (run World unit) :=
  match events with
  | [] => []
  | e :: events' =>
      let r := dispatch (pressed e) (source e) (presser e) v in
      r :: session events' (self_after r)
  end.

Definition has_callback (v : EmbedNavigationView World) : bool :=
  match refresh_callback v with Some _ => true | None => false end.

(** The buttons of the view are those that [update_buttons] makes for
    its page and its number of pages. *)
Definition buttons_in_sync (v : EmbedNavigationView World) : Prop :=
  children v
  = buttons_for (current_page v) (total_pages v) (has_callback v).

End Sessions.

Arguments dispatch {World B} _ _ _.
Arguments Event {World} _ _ _.
Arguments pressed {World} _.
Arguments presser {World} _.
Arguments source {World} _.
Arguments session {World B} _ _.
Arguments has_callback {World} _.
Arguments buttons_in_sync {World} _.

(** A call that answers the interaction itself: Discord accepts one,
    and only one, for each interaction. *)
Definition is_response (a : action) : bool :=
  match a with
  | response_send_message _ _ | response_edit_message _ _
  | response_defer _ => true
  | _ => false
  end.

(** The calls start with the one response, and no other follows. *)
Definition one_response (calls : list action) : Prop :=
  exists a rest,
    calls = a :: rest
    /\ is_response a = true
    /\ forallb (fun c => negb (is_response c)) rest = true.

(** The coroutine raised nothing that is an [Exception], and left a
    view that is well formed, whose buttons are in sync and whose
    owner and callback are those of [v]. *)
Definition settled {World : Type} (v : EmbedNavigationView World)
    (r : run World unit) : Prop :=
  (forall e, returned r = Raise e -> is_Exception (exn_kind_of e) = false)
  /\ well_formed (self_after r)
  /\ buttons_in_sync (self_after r)
  /\ user_id (self_after r) = user_id v
  /\ refresh_callback (self_after r) = refresh_callback v.

(** What one press leaves behind: a settled view and one response. *)
Definition step_ok {World : Type} (v : EmbedNavigationView World)
    (r : run World unit) : Prop :=
  settled v r /\ one_response (calls r).

(** Three presses on a view: Next by the owner, a refresh by the
    owner while the source holds the scenario text, Last by someone
    else. *)
Definition sample_presses : list (event (result (option pystr))) :=
  [ Event h_next_page (MkInteraction 7) (Ok None);
    Event h_refresh_data (MkInteraction 7) (Ok (Some scenario_text));
    Event h_goto_bottom (MkInteraction 9) (Ok None) ].

(* ================================================================= *)
(** * Properties *)

(** ** The cell parser *)

Section ParserFacts.

Context {B : Builtins}.

Lemma rows_of_Some (data : list pyobj) (rows : list (list pyobj)) :
  rows_of data = Some rows <-> data = map PList rows.
Proof.
  revert rows; induction data as [|x data IH]; intros rows; simpl.
  - split.
    + intros H; injection H as <-; reflexivity.
    + destruct rows; [reflexivity | discriminate].
  - destruct x; try (split; [discriminate | destruct rows; discriminate]).
    destruct (rows_of data) as [rows'|] eqn:E.
    + split.
      * intros H; injection H as <-; simpl.
        f_equal. apply IH. reflexivity.
      * destruct rows as [|r rows]; [discriminate|]; simpl.
        intros H; injection H as -> H.
        apply IH in H. injection H as ->. reflexivity.
    + split; [discriminate|].
      destruct rows as [|r rows]; [discriminate|]; simpl.
      intros H; injection H as -> H.
      apply IH in H. discriminate.
Qed.

Lemma rows_of_None (data : list pyobj) :
  rows_of data = None <-> exists x, In x data /\ is_list x = false.
Proof.
  induction data as [|x data IH]; simpl.
  - split; [discriminate | intros (x & [] & _)].
  - destruct x;
      try (split; [intros _; eexists; split; [left; reflexivity | reflexivity]
                  | reflexivity]).
    destruct (rows_of data) as [rows|].
    + split; [discriminate|].
      intros (x & [<- | Hin] & Hx); [discriminate|].
      destruct IH as [_ IH]. discriminate IH. eauto.
    + split; [|reflexivity].
      intros _. destruct IH as [IH _].
      destruct (IH eq_refl) as (x & Hin & Hx). eauto.
Qed.

(** C9, as amended. [parse_json_cell] returns [None] exactly when
    [json.loads] raises on the text, or the decoded value is not a
    list, or one element of the decoded list is not a list; it returns
    a table exactly when the text decodes to the list of the rows of
    that table, so nothing of the decoded table is dropped. Whether
    [json.loads] raises is not whether the text is valid JSON: it
    decodes [NaN], [Infinity] and [-Infinity]. *)
Theorem parse_json_cell_fails_iff (cell_value : pystr) :
  (parse_json_cell cell_value = None <->
     (exists e, json_loads cell_value = Raise e)
     \/ (exists data, json_loads cell_value = Ok data /\ is_list data = false)
     \/ (exists items x,
           json_loads cell_value = Ok (PList items)
           /\ In x items /\ is_list x = false))
  /\ (forall table,
        parse_json_cell cell_value = Some table <->
        json_loads cell_value = Ok (PList (map PList table))).
Proof.
  unfold parse_json_cell. split.
  - destruct (json_loads cell_value) as [data|e] eqn:E.
    + destruct data;
        try (split; [intros _; right; left; eexists; split; reflexivity
                    | reflexivity]).
      rewrite rows_of_None. split.
      * intros (x & Hin & Hx). right; right. eauto.
      * intros [(e & He) | [(d & Hd & Hl) | (l & x & Hl & Hin & Hx)]].
        -- discriminate.
        -- injection Hd as <-. discriminate.
        -- injection Hl as <-. eauto.
    + split; [intros _; left; eauto | reflexivity].
  - intros table. destruct (json_loads cell_value) as [data|e] eqn:E.
    + destruct data; try (split; discriminate).
      rewrite rows_of_Some. split.
      * intros ->; reflexivity.
      * intros H; injection H as ->; reflexivity.
    + split; discriminate.
Qed.

End ParserFacts.

(** ** The tile builder: one specification per row of 7 columns or more *)

Section BuilderFacts.

Context {B : Builtins}.

Lemma parse_rows_Ok (data : list (list pyobj)) :
  forall row_idx embeds specs,
    parse_rows row_idx data embeds = Ok specs ->
    exists new,
      specs = embeds ++ new
      /\ Forall2 built_from (filter has_7_columns data) new.
Proof.
  induction data as [|row data IH]; intros row_idx embeds specs; simpl.
  - intros H; injection H as <-. exists []. rewrite app_nil_r. auto.
  - unfold has_7_columns at 1.
    destruct (Nat.ltb_spec (length row) 7) as [Hlt|Hge].
    + replace (7 <=? length row)%nat with false
        by (symmetry; apply Nat.leb_gt; exact Hlt).
      apply IH.
    + replace (7 <=? length row)%nat with true
        by (symmetry; apply Nat.leb_le; exact Hge).
      destruct (embed_of_row row_idx row) as [spec|e] eqn:E; simpl;
        [|discriminate].
      intros H. apply IH in H. destruct H as (new & -> & HF).
      exists (spec :: new). rewrite <- app_assoc. split; [reflexivity|].
      constructor; [exists row_idx; exact E | exact HF].
Qed.

Lemma parse_embed_data_Ok (data : list (list pyobj)) (specs : list embed_spec) :
  parse_embed_data data = Ok specs ->
  Forall2 built_from (filter has_7_columns data) specs.
Proof.
  unfold parse_embed_data.
  destruct (negb (nonempty data) || (len data =? 0)) eqn:E.
  - intros H; injection H as <-.
    destruct data as [|row data]; [constructor|].
    unfold len in E; simpl in E. discriminate.
  - intros H. apply parse_rows_Ok in H. destruct H as (new & -> & HF).
    exact HF.
Qed.

(** ** URL validation *)

Lemma validate_url_no_scheme (s field_name : pystr) (row_idx : nat) :
  no_http_scheme (strip s) ->
  validate_url (PStr s) field_name row_idx = None.
Proof.
  intros [H1 H2]. unfold validate_url. cbn [truthy py_str].
  destruct (nonempty s); cbn [negb]; [|reflexivity].
  destruct (nonempty (strip s)); cbn [negb]; [|reflexivity].
  rewrite H1, H2. reflexivity.
Qed.

(** C8, as amended. A link column (2 for the title, 5 for the author)
    that holds a non-empty string which, once stripped of the white
    space around it, does not start with [http://] or [https://], is
    recorded as absent in the specification built from the row. *)
Theorem url_without_scheme_is_absent
    (data : list (list pyobj)) (specs : list embed_spec) :
  parse_embed_data data = Ok specs ->
  Forall2
    (fun row spec =>
       (forall s, item row 2 = PStr s -> s <> [] ->
                  no_http_scheme (strip s) -> title_url spec = None)
       /\ (forall s, item row 5 = PStr s -> s <> [] ->
                     no_http_scheme (strip s) -> author_url spec = None))
    (filter has_7_columns data) specs.
Proof.
  intros H. apply parse_embed_data_Ok in H.
  assert (Hlen : Forall (fun row => has_7_columns row = true)
                        (filter has_7_columns data)).
  { apply Forall_forall. intros row Hin. apply filter_In in Hin. tauto. }
  induction H as [|row spec rows specs' (row_idx & Hb) HF IH];
    constructor.
  - inversion Hlen as [|? ? H7 _]; subst.
    unfold has_7_columns in H7. apply Nat.leb_le in H7.
    unfold embed_of_row in Hb.
    destruct (try_except _ _ _) as [c|e]; simpl in Hb; [|discriminate].
    injection Hb as <-. simpl.
    replace (2 <? length row)%nat with true
      by (symmetry; apply Nat.ltb_lt; lia).
    replace (5 <? length row)%nat with true
      by (symmetry; apply Nat.ltb_lt; lia).
    split; intros s -> _ Hs; apply validate_url_no_scheme; exact Hs.
  - apply IH. inversion Hlen; assumption.
Qed.

(** ** Rows and specifications *)

Lemma embed_of_row_Ok (row_idx : nat) (row : list pyobj) :
  color_converts row -> exists spec, embed_of_row row_idx row = Ok spec.
Proof.
  intros Hc. unfold embed_of_row.
  assert (Hcolor : exists c,
             try_except
               (if (3 <? length row)%nat && truthy (item row 3)
                then py_int (item row 3) else Ok 0)
               [ValueError; TypeError] (Ok 0) = Ok c).
  { destruct ((3 <? length row)%nat && truthy (item row 3));
      [|eexists; reflexivity].
    unfold color_converts in Hc.
    destruct (item row 3) as [| b | z | f | s | l | d]; simpl;
      try (eexists; reflexivity).
    - destruct f as [m e | negative |]; simpl; try (eexists; reflexivity).
      exfalso. apply (Hc negative). reflexivity.
    - destruct (int_of_str s); simpl; eexists; reflexivity. }
  destruct Hcolor as (c & ->). simpl. eexists; reflexivity.
Qed.

Lemma parse_rows_total (data : list (list pyobj)) :
  (forall row, In row data -> color_converts row) ->
  forall row_idx embeds, exists specs, parse_rows row_idx data embeds = Ok specs.
Proof.
  induction data as [|row data IH]; intros Hc row_idx embeds; simpl.
  - eexists; reflexivity.
  - destruct (length row <? 7)%nat.
    + apply IH. intros r Hr. apply Hc. right. exact Hr.
    + destruct (embed_of_row_Ok row_idx row) as (spec & ->).
      { apply Hc. left. reflexivity. }
      simpl. apply IH. intros r Hr. apply Hc. right. exact Hr.
Qed.

(** On tables where no colour cell is a float infinity, the builder
    returns one specification per row of 7 columns or more, in the
    order of the rows, and raises nothing. *)
Lemma parse_embed_data_without_infinity (data : list (list pyobj)) :
  (forall row, In row data -> color_converts row) ->
  exists specs,
    parse_embed_data data = Ok specs
    /\ Forall2 built_from (filter has_7_columns data) specs.
Proof.
  intros Hc.
  assert (H : exists specs, parse_embed_data data = Ok specs).
  { unfold parse_embed_data.
    destruct (negb (nonempty data) || (len data =? 0)).
    - eexists; reflexivity.
    - apply parse_rows_total. exact Hc. }
  destruct H as (specs & H). exists specs. split; [exact H|].
  apply parse_embed_data_Ok. exact H.
Qed.

(** C7, at the input where the code departs from it. A row of 7
    columns whose colour cell is a float infinity (the JSON number
    [1e400]) yields no specification: [int] raises [OverflowError],
    which the handler for [ValueError] and [TypeError] does not catch,
    and the exception leaves [parse_embed_data]. *)
Theorem parse_embed_data_infinite_color :
  has_7_columns infinite_color_row = true
  /\ parse_embed_data [infinite_color_row]
     = Raise (Exn OverflowError (u "cannot convert float infinity to integer")).
Proof. split; reflexivity. Qed.

End BuilderFacts.

(** ** The scan of the attachment columns *)

Section ScanFacts.

Context {B : Builtins}.

Lemma all_remaining_empty_from_iff (row : list pyobj) (n : nat) :
  forall check_idx,
    all_remaining_empty_from row check_idx n = true <->
    (forall j, (check_idx <= j < check_idx + n)%nat ->
               truthy (item row j) = false).
Proof.
  induction n as [|n IH]; intros check_idx; simpl.
  - split; [intros _ j Hj; lia | reflexivity].
  - destruct (truthy (item row check_idx)) eqn:E.
    + split; [discriminate|].
      intros H. rewrite (H check_idx) in E by lia. discriminate.
    + rewrite IH. split.
      * intros H j Hj.
        destruct (Nat.eq_dec j check_idx) as [->|Hne]; [exact E|].
        apply H. lia.
      * intros H j Hj. apply H. lia.
Qed.

Lemma all_remaining_empty_iff (row : list pyobj) (name_idx : nat) :
  all_remaining_empty row name_idx = true <->
  (forall j, (name_idx <= j < Nat.min (length row) 57)%nat ->
             truthy (item row j) = false).
Proof.
  unfold all_remaining_empty. rewrite all_remaining_empty_from_iff.
  split; intros H j Hj; apply H; lia.
Qed.

(** One turn of the loop, at a pair index of a row of 7 columns or
    more, with any running total: the turn stops without a pair
    exactly when (a) the name column is at or beyond the end of the
    row, or (b) every column from the name column up to
    [min(len(row), 57)] is falsy, or (c) the truncated name and value
    would take the running total beyond 6000. An empty pair followed
    by a truthy column in that range is appended, as long as the
    running total is at most 6000. *)
Lemma field_turn_stops_iff
    (row : list pyobj) (total_chars : Z) (field_idx : nat) :
  (7 <= length row)%nat ->
  (field_idx < 25)%nat ->
  let name_idx := (7 + field_idx * 2)%nat in
  let value_idx := (8 + field_idx * 2)%nat in
  (stops (field_turn_at row total_chars field_idx) = true <->
     (length row <= name_idx)%nat
     \/ (forall j, (name_idx <= j < Nat.min (length row) 57)%nat ->
                   truthy (item row j) = false)
     \/ total_chars
        + (len (pair_name row field_idx) + len (pair_value row field_idx))
        > 6000)
  /\ (item row name_idx = PStr [] ->
      item row value_idx = PStr [] ->
      (exists j, (value_idx < j < Nat.min (length row) 57)%nat
                 /\ truthy (item row j) = true) ->
      total_chars <= 6000 ->
      field_turn_at row total_chars field_idx
      = Append (Field [] []) total_chars).
Proof.
  intros _ _ name_idx value_idx. unfold field_turn_at. fold name_idx.
  split.
  - destruct (Nat.leb_spec (length row) name_idx) as [Ha|Ha]; simpl.
    { split; [intros _; left; exact Ha | reflexivity]. }
    destruct (all_remaining_empty row name_idx) eqn:Hb; simpl.
    { split; [intros _; right; left | reflexivity].
      apply all_remaining_empty_iff. exact Hb. }
    destruct (Z.gtb_spec
                (total_chars
                 + (len (pair_name row field_idx)
                    + len (pair_value row field_idx))) 6000) as [Hc|Hc];
      simpl.
    { split; [intros _; right; right; lia | reflexivity]. }
    split; [discriminate|].
    intros [Ha' | [Hb' | Hc']].
    + lia.
    + apply all_remaining_empty_iff in Hb'. congruence.
    + lia.
  - intros Hn Hv (j & Hj & Htrue) Hle.
    destruct (Nat.leb_spec (length row) name_idx) as [Ha|Ha]; [lia|].
    destruct (all_remaining_empty row name_idx) eqn:Hb.
    { rewrite all_remaining_empty_iff in Hb.
      rewrite (Hb j) in Htrue by lia. discriminate. }
    unfold pair_name, pair_value. fold name_idx. fold value_idx.
    replace (name_idx <? length row)%nat with true
      by (symmetry; apply Nat.ltb_lt; lia).
    replace (value_idx <? length row)%nat with true
      by (symmetry; apply Nat.ltb_lt; lia).
    rewrite Hn, Hv. simpl. unfold len; simpl.
    replace (total_chars + 0) with total_chars by lia.
    destruct (Z.gtb_spec total_chars 6000); [lia | reflexivity].
Qed.

(** ** The limit of 6000 characters *)

Lemma len_nonneg {A : Type} (l : list A) : 0 <= len l.
Proof. unfold len. lia. Qed.

Lemma len_firstn {A : Type} (n : nat) (l : list A) :
  len (firstn n l) <= Z.of_nat n.
Proof. unfold len. pose proof (firstn_le_length n l). lia. Qed.

Lemma fields_chars_app (fs gs : list field) :
  fields_chars (fs ++ gs) = fields_chars fs + fields_chars gs.
Proof.
  induction fs as [|f fs IH]; simpl; [reflexivity|].
  fold (fields_chars (fs ++ gs)). fold (fields_chars fs). lia.
Qed.

(** The fields a scan appends keep the running total within 6000,
    unless it was beyond when the scan began. *)
Lemma scan_fields_chars (row : list pyobj) (idxs : list nat) :
  forall total_chars fs,
    total_chars
    + (fields_chars (scan_fields row idxs total_chars fs) - fields_chars fs)
    <= Z.max total_chars 6000.
Proof.
  induction idxs as [|field_idx idxs IH]; intros total_chars fs; simpl.
  - lia.
  - unfold field_turn_at.
    destruct (length row <=? 7 + field_idx * 2)%nat; [lia|].
    destruct (all_remaining_empty row (7 + field_idx * 2)); [lia|].
    set (n := len (pair_name row field_idx) + len (pair_value row field_idx)).
    destruct (Z.gtb_spec (total_chars + n) 6000) as [Hc|Hc]; [lia|].
    specialize (IH (total_chars + n)
                   (fs ++ [Field (pair_name row field_idx)
                                 (pair_value row field_idx)])).
    rewrite fields_chars_app in IH. simpl in IH.
    pose proof (len_nonneg (pair_name row field_idx)).
    pose proof (len_nonneg (pair_value row field_idx)).
    fold n in IH. lia.
Qed.

Lemma embed_of_row_fields (row_idx : nat) (row : list pyobj)
    (spec : embed_spec) :
  embed_of_row row_idx row = Ok spec ->
  fields spec
  = scan_fields row (seq 0 25)
      (fixed_chars (title spec) (description spec) (footer spec)
                   (author spec)) [].
Proof.
  unfold embed_of_row.
  destruct (try_except _ _ _) as [c|e]; cbn [bind]; [|discriminate].
  intros H; injection H as <-. reflexivity.
Qed.

Lemma fixed_chars_sum (t d f : pystr) (a : option pystr) :
  fixed_chars t d f a
  = len t + len d + len f + match a with Some a => len a | None => 0 end.
Proof.
  unfold fixed_chars. destruct a as [[|c a]|]; simpl; unfold len; simpl; lia.
Qed.

(** When title, description, footer and author together stay within
    6000 characters, so does the whole specification. *)
Lemma spec_chars_within_limit (row_idx : nat) (row : list pyobj)
    (spec : embed_spec) :
  embed_of_row row_idx row = Ok spec ->
  len (title spec) + len (description spec) + len (footer spec)
  + match author spec with Some a => len a | None => 0 end <= 6000 ->
  spec_chars spec <= 6000.
Proof.
  intros H Hfixed. unfold spec_chars.
  rewrite (embed_of_row_fields _ _ _ H), fixed_chars_sum.
  match goal with
  | |- context [scan_fields row ?idxs ?t []] =>
      pose proof (scan_fields_chars row idxs t []) as Hs
  end.
  change (fields_chars []) with 0 in Hs. lia.
Qed.

(** C1, at the input where the code departs from it. A row with a
    description of 4096 characters and a footer of 2048 is accepted,
    and its specification holds 6144 characters: the limit is only
    looked at when a field is appended. *)
Theorem spec_chars_over_limit :
  exists spec,
    parse_embed_data [long_row 2048 []] = Ok [spec]
    /\ spec_chars spec = 6144.
Proof.
  exists (EmbedSpec [] (repeat 97%N 4096) None 0 None None
                    (repeat 98%N 2048) []).
  split; vm_compute; reflexivity.
Qed.

(** ** Where the scan stops *)

Lemma field_turn_goes_on (row : list pyobj) (total_chars : Z)
    (field_idx : nat) :
  stops (field_turn_at row total_chars field_idx) = false ->
  field_turn_at row total_chars field_idx
  = Append (pair_at row field_idx) (total_chars + pair_chars row field_idx).
Proof.
  unfold field_turn_at, pair_at, pair_chars.
  destruct (length row <=? 7 + field_idx * 2)%nat; [discriminate|].
  destruct (all_remaining_empty row (7 + field_idx * 2)); [discriminate|].
  destruct (_ >? 6000); [discriminate | reflexivity].
Qed.

(** The loop, read from its first stop: the pairs before it are
    appended, and nothing after. *)
Lemma scan_fields_until_stop (row : list pyobj) (t0 : Z) (n : nat) :
  forall start fs k,
    (k <= n)%nat ->
    (forall i, (start <= i < start + k)%nat ->
       stops (field_turn_at row (running_total row t0 i) i) = false) ->
    (k = n \/
     stops (field_turn_at row (running_total row t0 (start + k))
                          (start + k)) = true) ->
    scan_fields row (seq start n) (running_total row t0 start) fs
    = fs ++ map (pair_at row) (seq start k).
Proof.
  induction n as [|n IH]; intros start fs k Hk Hgo Hstop.
  - assert (k = 0)%nat by lia. subst k. simpl. rewrite app_nil_r.
    reflexivity.
  - cbn [seq scan_fields]. destruct k as [|k].
    + destruct Hstop as [Hstop | Hstop]; [discriminate|].
      rewrite Nat.add_0_r in Hstop.
      destruct (field_turn_at row (running_total row t0 start) start);
        try discriminate; simpl; rewrite app_nil_r; reflexivity.
    + rewrite field_turn_goes_on by (apply Hgo; lia).
      change (running_total row t0 start + pair_chars row start)
        with (running_total row t0 (S start)).
      rewrite (IH (S start) _ k).
      * rewrite <- app_assoc. reflexivity.
      * lia.
      * intros i Hi. apply Hgo. lia.
      * destruct Hstop as [Hstop | Hstop]; [left; lia|].
        right. replace (S start + k)%nat with (start + S k)%nat by lia.
        exact Hstop.
Qed.

Lemma first_stop (b : nat -> bool) (n : nat) :
  (forall i, (i < n)%nat -> b i = false)
  \/ exists k, (k < n)%nat /\ b k = true
               /\ forall i, (i < k)%nat -> b i = false.
Proof.
  induction n as [|n [IH | (k & Hk & Hb & Hbefore)]].
  - left. intros i Hi. lia.
  - destruct (b n) eqn:E.
    + right. exists n. split; [lia|]. split; [exact E | exact IH].
    + left. intros i Hi.
      destruct (Nat.eq_dec i n) as [->|]; [exact E | apply IH; lia].
  - right. exists k. split; [lia|]. split; assumption.
Qed.

Lemma stops_at_iff (row : list pyobj) (t0 : Z) (field_idx : nat) :
  (7 <= length row)%nat -> (field_idx < 25)%nat ->
  stops (field_turn_at row (running_total row t0 field_idx) field_idx) = true
  <-> stops_at row t0 field_idx.
Proof.
  intros H7 Hk.
  destruct (field_turn_stops_iff row (running_total row t0 field_idx)
              field_idx H7 Hk) as [H _].
  exact H.
Qed.

(** The fields of a built specification are the pairs before the
    first turn that stops, or the 25 pairs when no turn does. *)
Lemma built_fields_until_stop (row : list pyobj) (spec : embed_spec) :
  built_from row spec ->
  let t0 := fixed_chars (title spec) (description spec) (footer spec)
                        (author spec) in
  exists k,
    (k <= 25)%nat
    /\ fields spec = map (pair_at row) (seq 0 k)
    /\ (forall i, (i < k)%nat ->
          stops (field_turn_at row (running_total row t0 i) i) = false)
    /\ (k = 25%nat
        \/ stops (field_turn_at row (running_total row t0 k) k) = true).
Proof.
  intros (row_idx & Hb) t0.
  pose proof (embed_of_row_fields _ _ _ Hb) as Hf. fold t0 in Hf.
  set (b := fun i => stops (field_turn_at row (running_total row t0 i) i)).
  assert (Hfirst : exists k,
             (k <= 25)%nat
             /\ (forall i, (i < k)%nat -> b i = false)
             /\ (k = 25%nat \/ b k = true)).
  { destruct (first_stop b 25) as [Hnone | (k & Hk & Hbk & Hbefore)].
    - exists 25%nat. split; [lia|]. split; [exact Hnone | left; reflexivity].
    - exists k. split; [lia|]. split; [exact Hbefore | right; exact Hbk]. }
  destruct Hfirst as (k & Hk & Hgo & Hstop).
  exists k. split; [exact Hk|]. split; [|split; assumption].
  rewrite Hf. change t0 with (running_total row t0 0).
  rewrite (scan_fields_until_stop row t0 25 0 [] k Hk).
  - reflexivity.
  - intros i Hi. apply Hgo. lia.
  - exact Hstop.
Qed.

(** C2, as amended, for the loop itself. In the specification built
    from a row of 7 columns or more, the number of fields is the first
    pair index, from 0 to 24, at which the scan has a reason to stop:
    (a) the name column is at or beyond the end of the row, (b) every
    column from the name column up to [min(len(row), 57)] is falsy, or
    (c) the truncated name and value would take the running total,
    which starts at the characters of title, description, footer and
    author and grows with each pair appended, beyond 6000; it is 25
    when there is no such index. The fields are the pairs before that
    index, in order. An empty pair followed by a truthy column in
    that range, reached with a running total of at most 6000, is
    appended as a field with empty name and value, and the scan goes
    on after it. *)
Theorem scan_stops_at_first_stop (row : list pyobj) (spec : embed_spec) :
  built_from row spec ->
  (7 <= length row)%nat ->
  let t0 := fixed_chars (title spec) (description spec) (footer spec)
                        (author spec) in
  (forall k, (k <= 25)%nat ->
     (length (fields spec) = k <->
      (forall i, (i < k)%nat -> ~ stops_at row t0 i)
      /\ (k = 25%nat \/ stops_at row t0 k)))
  /\ fields spec = map (pair_at row) (seq 0 (length (fields spec)))
  /\ (forall i, (i < 25)%nat ->
        item row (7 + i * 2) = PStr [] ->
        item row (8 + i * 2) = PStr [] ->
        (exists j, (8 + i * 2 < j < Nat.min (length row) 57)%nat
                   /\ truthy (item row j) = true) ->
        running_total row t0 i <= 6000 ->
        (forall i', (i' < i)%nat -> ~ stops_at row t0 i') ->
        nth_error (fields spec) i = Some (Field [] [])
        /\ (i < length (fields spec))%nat).
Proof.
  intros Hbuilt H7 t0.
  destruct (built_fields_until_stop row spec Hbuilt)
    as (k0 & Hk0 & Hfields & Hgo0 & Hstop0).
  fold t0 in Hgo0, Hstop0.
  pose (b := fun i => stops (field_turn_at row (running_total row t0 i) i)).
  change (forall i, (i < k0)%nat -> b i = false) in Hgo0.
  change (k0 = 25%nat \/ b k0 = true) in Hstop0.
  assert (Hlen : length (fields spec) = k0).
  { rewrite Hfields, length_map, length_seq. reflexivity. }
  assert (Hno : forall i, (i < 25)%nat ->
                          (b i = false <-> ~ stops_at row t0 i)).
  { intros i Hi. unfold b. rewrite <- (stops_at_iff row t0 i H7 Hi).
    destruct (stops (field_turn_at row (running_total row t0 i) i));
      split; intros H; try reflexivity;
      try discriminate; try (intros E; discriminate E).
    exfalso. apply H. reflexivity. }
  split; [|split].
  - intros k Hk. split.
    + intros Hk'. assert (Hkk : k = k0) by lia. rewrite Hkk. split.
      * intros i Hi. apply Hno; [lia | apply Hgo0; exact Hi].
      * destruct Hstop0 as [E | Hbk]; [left; exact E|].
        destruct (Nat.eq_dec k0 25) as [E|]; [left; exact E|].
        right. apply (stops_at_iff row t0 k0 H7); [lia | exact Hbk].
    + intros (Hgo & Hstop). rewrite Hlen.
      destruct (Nat.lt_trichotomy k k0) as [Hlt | [E | Hgt]];
        [|symmetry; exact E|].
      * exfalso. destruct Hstop as [-> | Hstop]; [lia|].
        apply (stops_at_iff row t0 k H7) in Hstop; [|lia].
        unfold b in Hgo0. rewrite (Hgo0 k Hlt) in Hstop. discriminate.
      * exfalso. destruct Hstop0 as [-> | Hbk]; [lia|].
        apply (Hgo k0 Hgt). apply (stops_at_iff row t0 k0 H7); [lia|].
        exact Hbk.
  - rewrite Hlen. exact Hfields.
  - intros i Hi Hn Hv Hlater Htotal Hbefore.
    assert (Hbi : b i = false).
    { unfold b.
      destruct (field_turn_stops_iff row (running_total row t0 i) i H7 Hi)
        as [_ Hempty].
      rewrite (Hempty Hn Hv Hlater Htotal). reflexivity. }
    assert (Hik : (i < k0)%nat).
    { destruct (Nat.lt_ge_cases i k0) as [Hlt | Hge]; [exact Hlt|].
      exfalso. destruct Hstop0 as [-> | Hbk]; [lia|].
      destruct (Nat.eq_dec i k0) as [->|Hne]; [congruence|].
      apply (Hbefore k0); [lia|].
      apply (stops_at_iff row t0 k0 H7); [lia | exact Hbk]. }
    split; [|lia].
    rewrite Hfields. rewrite nth_error_map.
    rewrite nth_error_nth' with (d := 0%nat) by (rewrite length_seq; lia).
    rewrite seq_nth by lia. cbn [option_map Nat.add].
    unfold pair_at, pair_name, pair_value.
    replace (7 + i * 2 <? length row)%nat with true
      by (symmetry; apply Nat.ltb_lt;
          destruct Hlater as (j & Hj & _); lia).
    replace (8 + i * 2 <? length row)%nat with true
      by (symmetry; apply Nat.ltb_lt;
          destruct Hlater as (j & Hj & _); lia).
    rewrite Hn, Hv. reflexivity.
Qed.

End ScanFacts.

(** ** The tilde prefix *)

Section TildeFacts.

Context {B : Builtins}.

Lemma add_fields_In (fs : list field) (f : field) (ef : embed_field) :
  In f fs -> add_field_of f = Some ef -> In ef (add_fields fs).
Proof.
  induction fs as [|g fs IH]; simpl; [tauto|].
  intros [-> | Hin] Hf.
  - rewrite Hf. left. reflexivity.
  - destruct (add_field_of g); [right|]; apply IH; assumption.
Qed.

Lemma add_field_of_tilde (f : field) (rest : pystr) :
  name f = tilde :: rest ->
  add_field_of f
  = Some (EmbedField (str_or rest zwsp) (str_or (value f) zwsp) false).
Proof.
  intros Hn. unfold add_field_of. rewrite Hn. reflexivity.
Qed.

(** C3, as amended. In the specification built from a row, the field
    at an index whose name column reads as a text with a leading tilde
    keeps that name as it is read, with its tilde, cut to 256
    characters: the specification has no full-width flag. The renderer
    is where the tilde is removed: a field whose name starts with a
    tilde is added with [inline=False] under the rest of the name, and
    under the zero-width space when nothing is left, as for the name
    ["~"]. *)
Theorem tilde_prefix_rendered_full_width :
  (forall row spec field_idx f rest,
      built_from row spec ->
      nth_error (fields spec) field_idx = Some f ->
      py_str (item row (7 + field_idx * 2)) = tilde :: rest ->
      name f = tilde :: firstn 255 rest)
  /\ (forall spec f rest,
        In f (fields spec) ->
        name f = tilde :: rest ->
        In (EmbedField (str_or rest zwsp) (str_or (value f) zwsp) false)
           (embed_fields (create_discord_embed spec)))
  /\ (forall spec f,
        In f (fields spec) ->
        name f = [tilde] ->
        In (EmbedField zwsp (str_or (value f) zwsp) false)
           (embed_fields (create_discord_embed spec))).
Proof.
  split; [|split].
  - intros row spec field_idx f rest Hbuilt Hnth Hs.
    destruct (built_fields_until_stop row spec Hbuilt)
      as (k & Hk & Hfields & Hgo & _).
    assert (Hlt : (field_idx < k)%nat).
    { assert (H : nth_error (fields spec) field_idx <> None)
        by (rewrite Hnth; discriminate).
      apply nth_error_Some in H.
      rewrite Hfields, length_map, length_seq in H. exact H. }
    rewrite Hfields, nth_error_map in Hnth.
    rewrite nth_error_nth' with (d := 0%nat) in Hnth
      by (rewrite length_seq; exact Hlt).
    rewrite seq_nth in Hnth by exact Hlt.
    cbn [option_map Nat.add] in Hnth. injection Hnth as <-.
    specialize (Hgo field_idx Hlt). unfold field_turn_at in Hgo.
    destruct (Nat.leb_spec (length row) (7 + field_idx * 2)) as [Ha|Ha];
      [discriminate Hgo|].
    unfold pair_at, pair_name. cbn [name].
    replace (7 + field_idx * 2 <? length row)%nat with true
      by (symmetry; apply Nat.ltb_lt; lia).
    rewrite Hs. reflexivity.
  - intros spec f rest Hin Hn. simpl.
    apply (add_fields_In _ f); [exact Hin|].
    apply add_field_of_tilde. exact Hn.
  - intros spec f Hin Hn. simpl.
    apply (add_fields_In _ f); [exact Hin|].
    rewrite (add_field_of_tilde f []) by exact Hn. reflexivity.
Qed.

End TildeFacts.

(** ** The navigation view *)

Section ViewFacts.

Variable World : Type.
Context {B : Builtins}.

Lemma py_getitem_Ok {A : Type} (l : list A) (i : Z) :
  0 <= i < len l -> exists a, py_getitem l i = Ok a.
Proof.
  intros H. unfold py_getitem.
  destruct (Z.ltb_spec i 0); [lia|].
  destruct (Z.ltb_spec i 0); [lia|].
  destruct (Z.leb_spec (len l) i); [lia|]. simpl.
  destruct (nth_error l (Z.to_nat i)) eqn:E; [eauto|].
  apply nth_error_None in E. unfold len in H. lia.
Qed.

Ltac run_view :=
  cbv [goto_top previous_page next_page goto_bottom refresh_data
       bindM get put await lift ret try_catch await_callback
       set_current_page set_embeds_spec set_total_pages set_children
       current_embed update_buttons edit_message rejected keeps_tiles
       returned self_after calls
       embeds_spec current_page total_pages user_id refresh_callback
       children].

(** C6. An interaction whose user is not the owner of the view changes
    nothing, whichever of the five controls it comes from: the view is
    left as it was, the only call is the ephemeral notice, and the
    coroutine returns without an exception. *)
Theorem non_owner_is_rejected
    (v : EmbedNavigationView World) (interaction : Interaction) (w : World) :
  interaction_user_id interaction <> user_id v ->
  goto_top interaction v = rejected v
  /\ previous_page interaction v = rejected v
  /\ next_page interaction v = rejected v
  /\ goto_bottom interaction v = rejected v
  /\ refresh_data w interaction v = rejected v.
Proof.
  intros H. apply Z.eqb_neq in H.
  destruct v as [specs p n uid cb items]; simpl in H.
  unfold rejected.
  split; [|split; [|split; [|split]]];
    run_view; rewrite H; reflexivity.
Qed.

(** The view that [display_embeds] attaches to the message satisfies
    the invariant, and the four navigation coroutines keep it. *)
Lemma new_view_well_formed (specs : list embed_spec) (uid : Z)
    (cb : option (refresh_fn World)) :
  specs <> [] -> well_formed (new_view specs 0 uid cb).
Proof.
  intros Hne. unfold well_formed, new_view. run_view.
  split; [reflexivity|]. split; [lia|].
  destruct specs as [|spec specs]; [contradiction|].
  unfold len; simpl. lia.
Qed.

Lemma navigation_keeps_well_formed
    (v : EmbedNavigationView World) (interaction : Interaction) :
  well_formed v ->
  well_formed (self_after (goto_top interaction v))
  /\ well_formed (self_after (previous_page interaction v))
  /\ well_formed (self_after (next_page interaction v))
  /\ well_formed (self_after (goto_bottom interaction v)).
Proof.
  intros [Hn Hp]. unfold well_formed.
  destruct v as [specs p n uid cb items]; simpl in *. subst n.
  split; [|split; [|split]]; run_view;
    (destruct (interaction_user_id interaction =? uid); cbn [negb];
     [|cbv beta iota; split; [reflexivity | lia]]);
    repeat match goal with
    | |- context [?a <? ?b] => destruct (Z.ltb_spec a b)
    | |- context [?a >? ?b] => destruct (Z.gtb_spec a b)
    end;
    try match goal with
    | |- context [py_getitem specs ?q] => destruct (py_getitem specs q)
    end;
    cbv beta iota; (split; [reflexivity | lia]).
Qed.

(** C4. In a view on [n] tiles at index [p] of [0..n-1], the owner's
    Next leads to [min(p+1, n-1)], Prev to [max(p-1, 0)], First to 0
    and Last to [n-1]; Prev at 0 and Next at [n-1] only acknowledge
    the interaction and leave the view as it was; the four coroutines
    return and keep the tiles. *)
Theorem navigation_moves
    (v : EmbedNavigationView World) (interaction : Interaction) :
  well_formed v ->
  interaction_user_id interaction = user_id v ->
  let n := len (embeds_spec v) in
  let p := current_page v in
  (current_page (self_after (next_page interaction v)) = Z.min (p + 1) (n - 1)
   /\ current_page (self_after (previous_page interaction v)) = Z.max (p - 1) 0
   /\ current_page (self_after (goto_top interaction v)) = 0
   /\ current_page (self_after (goto_bottom interaction v)) = n - 1)
  /\ (p = 0 ->
      previous_page interaction v = Run v [response_defer false] (Ok tt))
  /\ (p = n - 1 ->
      next_page interaction v = Run v [response_defer false] (Ok tt))
  /\ (keeps_tiles (next_page interaction v) v
      /\ keeps_tiles (previous_page interaction v) v
      /\ keeps_tiles (goto_top interaction v) v
      /\ keeps_tiles (goto_bottom interaction v) v).
Proof.
  intros [Hn Hp] Hu.
  destruct v as [specs p n uid cb items]; simpl in *. subst n.
  assert (Hget : forall q, 0 <= q < len specs ->
                           exists spec, py_getitem specs q = Ok spec)
    by (intros q; apply py_getitem_Ok).
  unfold keeps_tiles.
  repeat match goal with |- _ /\ _ => split end;
    run_view; rewrite Hu, Z.eqb_refl; cbn [negb];
    try (intros ->);
    repeat match goal with
    | |- context [?a <? ?b] => destruct (Z.ltb_spec a b)
    | |- context [?a >? ?b] => destruct (Z.gtb_spec a b)
    end;
    try lia; try reflexivity;
    match goal with
    | |- context [py_getitem specs ?q] =>
        destruct (Hget q) as (spec & ->); [lia|]
    end;
    try lia; reflexivity.
Qed.

(** C5. A refresh asked by the owner of a view that has a callback:
    when the callback raises, returns [None] or an empty string, or
    returns a text that [parse_json_cell] rejects, the tiles and the
    index stay as they were; when it returns a text that parses to a
    non-empty list of [m] specifications, that list replaces the
    tiles and the index becomes [min(old index, m-1)]. *)
Theorem refresh_replaces_or_keeps
    (v : EmbedNavigationView World) (interaction : Interaction) (w : World)
    (callback : refresh_fn World) :
  interaction_user_id interaction = user_id v ->
  refresh_callback v = Some callback ->
  let v' := self_after (refresh_data w interaction v) in
  ((exists e, callback w = Raise e) -> same_position v' v)
  /\ (callback w = Ok None \/ callback w = Ok (Some []) -> same_position v' v)
  /\ (forall json_string,
        callback w = Ok (Some json_string) ->
        parse_json_cell json_string = None ->
        same_position v' v)
  /\ (forall json_string data specs,
        callback w = Ok (Some json_string) ->
        json_string <> [] ->
        parse_json_cell json_string = Some data ->
        parse_embed_data data = Ok specs ->
        specs <> [] ->
        embeds_spec v' = specs
        /\ total_pages v' = len specs
        /\ current_page v' = Z.min (current_page v) (len specs - 1)).
Proof.
  intros Hu Hcb.
  destruct v as [old p n uid cb items]; simpl in Hu, Hcb. subst cb.
  unfold same_position.
  split; [|split; [|split]].
  - intros (e & He). run_view. rewrite Hu, Z.eqb_refl; cbn [negb].
    rewrite He. cbv beta iota.
    destruct (is_Exception (exn_kind_of e)); cbn; split; reflexivity.
  - intros [He | He]; run_view; rewrite Hu, Z.eqb_refl; cbn [negb];
      rewrite He; cbn; split; reflexivity.
  - intros json_string He Hparse. run_view.
    rewrite Hu, Z.eqb_refl; cbn [negb]. rewrite He.
    destruct json_string as [|c json_string]; [cbn; split; reflexivity|].
    cbn iota beta. rewrite Hparse. cbn. split; reflexivity.
  - intros json_string data specs He Hjs Hparse Hbuild Hne. run_view.
    rewrite Hu, Z.eqb_refl; cbn [negb]. rewrite He.
    destruct json_string as [|c json_string]; [contradiction|].
    cbn iota beta. rewrite Hparse.
    destruct data as [|row data].
    { unfold parse_embed_data in Hbuild. cbn [nonempty negb orb] in Hbuild.
      injection Hbuild as <-. contradiction. }
    cbn iota beta. rewrite Hbuild.
    destruct specs as [|spec specs]; [contradiction|].
    cbn [nonempty negb].
    destruct (Z.geb_spec p (len (spec :: specs))) as [Hge|Hlt];
      (destruct (py_getitem (spec :: specs) _) as [tile|e];
       [|destruct (is_Exception (exn_kind_of e))]); cbv beta iota;
      (split; [reflexivity | split; [reflexivity | lia]]).
Qed.

End ViewFacts.

(** ** The [/test] command *)

(** C10. [display_embeds] has the three parameters [interaction],
    [json_string] and [refresh_callback], and a call with the keywords
    [json_string] and [refresh_callback] binds; the call of the
    [/test] command adds the keyword [additional_buttons], so that,
    whatever the sheet holds and whoever asks, the command defers the
    response and raises [TypeError]: the callback is not awaited and
    nothing is sent. *)
Theorem test_command_raises_TypeError {B : Builtins}
    (w : sheet) (interaction : Interaction) :
  map param_name display_embeds_params
  = ["interaction"; "json_string"; "refresh_callback"]%string
  /\ bind_arguments "display_embeds" display_embeds_params 1
       ["json_string"; "refresh_callback"]%string = Ok tt
  /\ test_command w interaction
     = ([response_defer true],
        Raise (Exn TypeError
                 (u "display_embeds() got an unexpected keyword argument 'additional_buttons'"))).
Proof. split; [|split]; reflexivity. Qed.

(* ================================================================= *)
(** * The statements on concrete inputs *)

(** The first scenario of the specification: one tile. *)
Example scenario_one_tile :
  match parse_json_cell (B := sample_builtins) scenario_text with
  | Some data => parse_embed_data (B := sample_builtins) data
  | None => Ok []
  end = Ok [sample_spec].
Proof. vm_compute. reflexivity. Qed.

(** The recogniser on the texts of the samples, on numbers, escapes
    and nested values, and on texts that are not JSON. *)
Example valid_json_samples :
  map valid_json
      [scenario_text; u "[]"; u "[[]]"; u "[1]"; u "{}";
       u " [ -1.5e+10 , 0 , true , false , null ] ";
       u "{" ++ json_str "k" ++ u " : [ {" ++ json_str "a\n\u00e9\/"
         ++ u ":0.25E-3} ] }"]
  = repeat true 7
  /\ map valid_json
       [u ""; u "[1"; u "[1,]"; u "[01]"; u "[1.]"; u "[.5]"; u "[+1]";
        u "[nul]"; u "[1] 2"; u "{1:2}"; u "['a']"; u "[NaN]";
        u "[Infinity]"; u "[-Infinity]"; u "[[NaN]]";
        json_str "a\x"]
     = repeat false 16.
Proof. split; vm_compute; reflexivity. Qed.

(** C9 as stated fails: the text [[[NaN]]] is not syntactically valid
    JSON, which has no value [NaN]; [json.loads] decodes it to a list
    that holds one list, and the parser returns that table. *)
Lemma nan_text_is_parsed :
  valid_json (u "[[NaN]]") = false
  /\ json_loads (Builtins := sample_builtins) (u "[[NaN]]")
     = Ok (PList [PList [PFloat FNaN]])
  /\ parse_json_cell (B := sample_builtins) (u "[[NaN]]")
     = Some [[PFloat FNaN]].
Proof.
  split; [vm_compute; reflexivity|].
  split; vm_compute; reflexivity.
Qed.

(** C8 as stated fails: the title link [" http://x"] is a non-empty
    string that does not start with [http://] or [https://], and the
    specification records the link ["http://x"]. *)
Lemma url_with_leading_space_is_kept :
  let s := u " http://x" in
  let row := [cell "T"; cell "D"; PStr s; cell "1"; cell ""; cell "";
              cell "F"] in
  s <> []
  /\ no_http_scheme s
  /\ item row 2 = PStr s
  /\ parse_embed_data (B := sample_builtins) [row]
     = Ok [EmbedSpec (u "T") (u "D") (Some (u "http://x")) 1 None None
                     (u "F") []].
Proof.
  cbv zeta. split; [discriminate|].
  split; [split; reflexivity|].
  split; [reflexivity|]. vm_compute. reflexivity.
Qed.

Lemma url_without_scheme_is_absent_witness :
  let row := [cell "T"; cell "D"; cell "ftp://x"; cell "1"; cell "";
              cell "mailto:y"; cell "F"; cell "N1"; cell "V1"] in
  let spec := EmbedSpec (u "T") (u "D") None 1 None None (u "F")
                        [Field (u "N1") (u "V1")] in
  parse_embed_data (B := sample_builtins) [row] = Ok [spec]
  /\ Forall2
       (fun row spec =>
          (forall s, item row 2 = PStr s -> s <> [] ->
                     no_http_scheme (strip s) -> title_url spec = None)
          /\ (forall s, item row 5 = PStr s -> s <> [] ->
                        no_http_scheme (strip s) -> author_url spec = None))
       (filter has_7_columns [row]) [spec].
Proof.
  cbv zeta. split.
  - vm_compute. reflexivity.
  - apply (url_without_scheme_is_absent (B := sample_builtins)).
    vm_compute. reflexivity.
Defined.

(** C2 as stated fails: with a description of 4096 characters and a
    footer of 1900, the first pair (11 characters) would take the
    total to 6007; the scan stops there without a pair, although the
    name column is inside the row and is not empty. *)
Lemma scan_stops_at_character_limit :
  let row := long_row 1900 [cell "N"; cell "VVVVVVVVVV"] in
  has_7_columns row = true
  /\ stops (field_turn_at (B := sample_builtins) row 5996 0) = true
  /\ ~ (length row <= 7)%nat
  /\ ~ (forall j, (7 <= j < Nat.min (length row) 57)%nat ->
                  truthy (item row j) = false)
  /\ parse_embed_data (B := sample_builtins) [row]
     = Ok [EmbedSpec [] (repeat 97%N 4096) None 0 None None
                     (repeat 98%N 1900) []].
Proof.
  cbv zeta. split; [reflexivity|]. split; [vm_compute; reflexivity|].
  split; [vm_compute; lia|]. split.
  - intros H. specialize (H 7%nat). vm_compute in H.
    assert (E : true = false) by (apply H; split; lia). discriminate E.
  - vm_compute. reflexivity.
Qed.

(** A row with an empty pair before a pair [N], [V]: two fields, the
    first one empty, and the scan stops at pair 2, where the row
    ends. *)
Lemma scan_stops_at_first_stop_witness :
  let row := plain_row [cell ""; cell ""; cell "N"; cell "V"] in
  let spec := EmbedSpec (u "A") (u "B") None 0 None None (u "F")
                        [Field [] []; Field (u "N") (u "V")] in
  built_from (B := sample_builtins) row spec
  /\ (forall i, (i < 2)%nat -> ~ stops_at (B := sample_builtins) row 3 i)
  /\ stops_at (B := sample_builtins) row 3 2
  /\ nth_error (fields spec) 0 = Some (Field [] []).
Proof.
  cbv zeta.
  assert (Hbuilt : built_from (B := sample_builtins)
            (plain_row [cell ""; cell ""; cell "N"; cell "V"])
            (EmbedSpec (u "A") (u "B") None 0 None None (u "F")
               [Field [] []; Field (u "N") (u "V")])).
  { exists 0%nat. vm_compute. reflexivity. }
  assert (H7 : (7 <= length
                  (plain_row [cell ""; cell ""; cell "N"; cell "V"]))%nat).
  { vm_compute. lia. }
  destruct (scan_stops_at_first_stop (B := sample_builtins) _ _ Hbuilt H7)
    as (Hcount & _ & Hempty).
  split; [exact Hbuilt|].
  destruct (Hcount 2%nat) as [(Hgo & Hstop) _]; [lia | reflexivity |].
  split; [exact Hgo|]. split.
  - destruct Hstop as [E | Hstop]; [discriminate E | exact Hstop].
  - apply (Hempty 0%nat).
    + lia.
    + reflexivity.
    + reflexivity.
    + exists 9%nat. split; [vm_compute; lia | reflexivity].
    + vm_compute. discriminate.
    + intros i' Hi'. lia.
Defined.

(** C3 as stated fails: the specification built from a name ["~Wide"]
    holds the name with its tilde and nothing else about the width,
    and the name ["~"] is displayed as the zero-width space, which is
    one character. *)
Lemma tilde_kept_in_specification :
  parse_embed_data (B := sample_builtins)
    [plain_row [cell "~Wide"; cell "V"]]
  = Ok [EmbedSpec (u "A") (u "B") None 0 None None (u "F")
                  [Field (u "~Wide") (u "V")]]
  /\ add_fields [Field (u "~") (u "V")] = [EmbedField zwsp (u "V") false]
  /\ zwsp <> [].
Proof.
  split; [vm_compute; reflexivity|].
  split; [vm_compute; reflexivity | discriminate].
Qed.

Lemma tilde_prefix_rendered_full_width_witness :
  let row := plain_row [cell "~Wide"; cell "V"] in
  let spec := EmbedSpec (u "A") (u "B") None 0 None None (u "F")
                        [Field (u "~Wide") (u "V")] in
  built_from (B := sample_builtins) row spec
  /\ name (Field (u "~Wide") (u "V")) = tilde :: firstn 255 (u "Wide")
  /\ In (EmbedField (u "Wide") (u "V") false)
        (embed_fields (create_discord_embed spec)).
Proof.
  cbv zeta.
  assert (Hbuilt : built_from (B := sample_builtins)
            (plain_row [cell "~Wide"; cell "V"])
            (EmbedSpec (u "A") (u "B") None 0 None None (u "F")
               [Field (u "~Wide") (u "V")])).
  { exists 0%nat. vm_compute. reflexivity. }
  destruct (tilde_prefix_rendered_full_width (B := sample_builtins))
    as (Hkept & Hwide & _).
  split; [exact Hbuilt|]. split.
  - apply (Hkept _ _ 0%nat _ (u "Wide") Hbuilt); reflexivity.
  - apply (Hwide _ (Field (u "~Wide") (u "V")) (u "Wide"));
      [left; reflexivity | reflexivity].
Defined.

Lemma sample_view_well_formed : well_formed (sample_view 3 1).
Proof.
  split; [reflexivity|]. split; [discriminate | reflexivity].
Defined.

Lemma navigation_moves_witness :
  current_page
    (self_after (next_page (MkInteraction 7) (sample_view 3 1))) = 2
  /\ current_page
       (self_after (previous_page (MkInteraction 7) (sample_view 3 1))) = 0.
Proof.
  destruct (navigation_moves _ (sample_view 3 1) (MkInteraction 7)
              sample_view_well_formed eq_refl)
    as ((Hnext & Hprev & _) & _).
  split; [exact Hnext | exact Hprev].
Defined.

Lemma non_owner_is_rejected_witness :
  next_page (MkInteraction 8) (sample_view 3 1) = rejected (sample_view 3 1)
  /\ refresh_data (B := sample_builtins) (Ok None) (MkInteraction 8)
       (sample_view 3 1)
     = rejected (sample_view 3 1).
Proof.
  destruct (non_owner_is_rejected (B := sample_builtins) _
              (sample_view 3 1) (MkInteraction 8) (Ok None))
    as (_ & _ & Hnext & _ & Hrefresh).
  - discriminate.
  - split; [exact Hnext | exact Hrefresh].
Defined.

Lemma refresh_replaces_or_keeps_witness :
  let v' := self_after
              (refresh_data (B := sample_builtins) (Ok (Some scenario_text))
                 (MkInteraction 7) (sample_view 3 2)) in
  embeds_spec v' = [sample_spec]
  /\ total_pages v' = 1
  /\ current_page v' = 0.
Proof.
  cbv zeta.
  destruct (refresh_replaces_or_keeps (B := sample_builtins) _
              (sample_view 3 2) (MkInteraction 7) (Ok (Some scenario_text))
              (fun w => w) eq_refl eq_refl)
    as (_ & _ & _ & H).
  apply (H scenario_text [plain_row []] [sample_spec]).
  - reflexivity.
  - discriminate.
  - vm_compute. reflexivity.
  - vm_compute. reflexivity.
  - discriminate.
Defined.

(* ================================================================= *)
(** * Further properties *)

(** ** The tile builder, field by field *)

Section BuilderMore.

Context {B : Builtins}.

Lemma firstn_seq (k : nat) :
  forall start n, firstn k (seq start n) = seq start (Nat.min k n).
Proof.
  induction k as [|k IH]; intros start n; [reflexivity|].
  destruct n as [|n]; [reflexivity|]. simpl. rewrite IH. reflexivity.
Qed.

Lemma some_truthy_from (row : list pyobj) (n : nat) :
  forall start,
    all_remaining_empty_from row start n = false ->
    exists j, (start <= j < start + n)%nat /\ truthy (item row j) = true.
Proof.
  induction n as [|n IHn]; intros start; simpl; [discriminate|].
  destruct (truthy (item row start)) eqn:E.
  - intros _. exists start. split; [lia | exact E].
  - intros H. destruct (IHn _ H) as (j & Hj & Ht).
    exists j. split; [lia | exact Ht].
Qed.

Lemma scan_fields_shape (row : list pyobj) (idxs : list nat) :
  forall total_chars fs,
  exists k,
    (k <= length idxs)%nat
    /\ scan_fields row idxs total_chars fs
       = fs ++ map (pair_at row) (firstn k idxs)
    /\ Forall (worth_scanning row) (firstn k idxs).
Proof.
  induction idxs as [|field_idx idxs IH]; intros total_chars fs.
  - exists 0%nat. simpl. rewrite app_nil_r. auto.
  - cbn [scan_fields]. unfold field_turn_at.
    destruct (Nat.leb_spec (length row) (7 + field_idx * 2)) as [Ha|Ha].
    { exists 0%nat. simpl. rewrite app_nil_r. split; [lia | auto]. }
    destruct (all_remaining_empty row (7 + field_idx * 2)) eqn:Hb.
    { exists 0%nat. simpl. rewrite app_nil_r. split; [lia | auto]. }
    destruct (_ >? 6000).
    { exists 0%nat. simpl. rewrite app_nil_r. split; [lia | auto]. }
    match goal with
    | |- context [scan_fields row idxs ?t ?l] =>
        destruct (IH t l) as (k & Hk & Heq & Hall)
    end.
    exists (S k). split; [simpl; lia|]. split.
    + rewrite Heq. rewrite <- app_assoc. reflexivity.
    + cbn [firstn]. constructor; [|exact Hall].
      split; [exact Ha|].
      unfold all_remaining_empty in Hb.
      apply some_truthy_from in Hb.
      destruct Hb as (j & Hj & Ht). exists j. split; [lia | exact Ht].
Qed.

(** X1. The fields of a specification are the first [k] pairs of
    columns of its row, in order and without gaps, for some [k] of at
    most 25: the scan never skips a pair and then takes a later one. *)
Theorem fields_are_leading_pairs (row : list pyobj) (spec : embed_spec) :
  built_from row spec ->
  exists k,
    (k <= 25)%nat
    /\ fields spec = map (pair_at row) (seq 0 k).
Proof.
  intros (row_idx & H). rewrite (embed_of_row_fields _ _ _ H).
  match goal with
  | |- context [scan_fields row ?idxs ?t ?l] =>
      destruct (scan_fields_shape row idxs t l) as (k & Hk & Heq & _)
  end.
  rewrite length_seq in Hk.
  exists k. split; [exact Hk|]. rewrite Heq, app_nil_l.
  rewrite firstn_seq. rewrite Nat.min_l by exact Hk. reflexivity.
Qed.

(** X2. Every field of a specification comes from a pair that lies
    inside the row and from whose name column on (up to column 56)
    some column is truthy: a row whose attachment columns are all
    empty has no fields, and no run of empty pairs ends the list
    unless something follows it in the row. *)
Theorem field_has_truthy_column_after (row : list pyobj) (spec : embed_spec) :
  built_from row spec ->
  forall i, (i < length (fields spec))%nat -> worth_scanning row i.
Proof.
  intros (row_idx & H) i. rewrite (embed_of_row_fields _ _ _ H).
  match goal with
  | |- context [scan_fields row ?idxs ?t ?l] =>
      destruct (scan_fields_shape row idxs t l) as (k & Hk & Heq & Hall)
  end.
  rewrite length_seq in Hk. rewrite Heq, app_nil_l.
  rewrite firstn_seq, Nat.min_l in * by exact Hk.
  rewrite length_map, length_seq. intros Hi.
  rewrite Forall_forall in Hall. apply Hall. apply in_seq. lia.
Qed.

Lemma embed_of_row_parts (row_idx : nat) (row : list pyobj)
    (spec : embed_spec) :
  embed_of_row row_idx row = Ok spec ->
  title spec = (if (0 <? length row)%nat
                then firstn 256 (py_str (item row 0)) else [])
  /\ description spec = (if (1 <? length row)%nat
                         then firstn 4096 (py_str (item row 1)) else [])
  /\ footer spec = (if (6 <? length row)%nat
                    then firstn 2048 (py_str (item row 6)) else [])
  /\ author spec = (if (4 <? length row)%nat && truthy (item row 4)
                    then Some (firstn 256 (py_str (item row 4))) else None)
  /\ title_url spec
     = validate_url (if (2 <? length row)%nat then item row 2 else PNone)
                    (u "TitleURL") row_idx
  /\ author_url spec
     = validate_url (if (5 <? length row)%nat then item row 5 else PNone)
                    (u "AuthorURL") row_idx
  /\ try_except
       (if (3 <? length row)%nat && truthy (item row 3)
        then py_int (item row 3) else Ok 0)
       [ValueError; TypeError] (Ok 0) = Ok (color spec).
Proof.
  unfold embed_of_row.
  destruct (try_except _ _ _) as [c|e]; cbn [bind]; [|discriminate].
  intros H; injection H as <-. cbn [title description footer author
                                     title_url author_url color].
  repeat match goal with |- _ /\ _ => split end; reflexivity.
Qed.

Lemma if_firstn_le {A : Type} (b : bool) (n : nat) (l : list A) :
  len (if b then firstn n l else []) <= Z.of_nat n.
Proof.
  destruct b; [apply len_firstn | unfold len; simpl; lia].
Qed.

Lemma embed_of_row_caps (row : list pyobj) (spec : embed_spec) :
  built_from row spec ->
  len (title spec) <= 256
  /\ len (description spec) <= 4096
  /\ len (footer spec) <= 2048
  /\ (forall a, author spec = Some a -> len a <= 256)
  /\ (length (fields spec) <= 25)%nat
  /\ Forall (fun f => len (name f) <= 256 /\ len (value f) <= 1024)
            (fields spec).
Proof.
  intros (row_idx & H).
  destruct (embed_of_row_parts _ _ _ H) as (Ht & Hd & Hf & Ha & _).
  rewrite Ht, Hd, Hf, Ha.
  split; [apply (if_firstn_le _ 256)|].
  split; [apply (if_firstn_le _ 4096)|].
  split; [apply (if_firstn_le _ 2048)|].
  split.
  { destruct (_ && _); [|discriminate].
    intros a E; injection E as <-. apply (len_firstn 256). }
  rewrite (embed_of_row_fields _ _ _ H).
  match goal with
  | |- context [scan_fields row ?idxs ?t ?l] =>
      destruct (scan_fields_shape row idxs t l) as (k & Hk & Heq & _)
  end.
  rewrite length_seq in Hk. rewrite Heq, app_nil_l.
  split.
  - rewrite length_map. pose proof (firstn_le_length k (seq 0 25)). lia.
  - apply Forall_forall. intros f Hin. apply in_map_iff in Hin.
    destruct Hin as (i & <- & _). cbn [pair_at name value].
    split; [apply (len_firstn 256) | apply (len_firstn 1024)].
Qed.

(** X3. Whatever the cells hold, a specification stays within the
    size of each part: title 256, description 4096, footer 2048,
    author 256, at most 25 fields, each with a name of at most 256 and
    a value of at most 1024 characters. *)
Theorem built_spec_within_caps (row : list pyobj) (spec : embed_spec) :
  built_from row spec ->
  len (title spec) <= 256
  /\ len (description spec) <= 4096
  /\ len (footer spec) <= 2048
  /\ (forall a, author spec = Some a -> len a <= 256)
  /\ (length (fields spec) <= 25)%nat
  /\ Forall (fun f => len (name f) <= 256 /\ len (value f) <= 1024)
            (fields spec).
Proof. exact (embed_of_row_caps row spec). Qed.

Lemma item_beyond (row : list pyobj) (i : nat) :
  (length row <= i)%nat -> item row i = PNone.
Proof. intros H. unfold item. apply nth_overflow. exact H. Qed.

(** X4. The colour of a specification is [int] of column 3 when that
    cell is truthy and converts, and 0 in every other case: a cell
    that is missing, empty, zero or [null], and a cell on which [int]
    raises an exception that is caught. *)
Theorem color_is_int_or_zero (row : list pyobj) (spec : embed_spec) :
  built_from row spec ->
  (truthy (item row 3) = false -> color spec = 0)
  /\ (forall z, truthy (item row 3) = true ->
                py_int (item row 3) = Ok z -> color spec = z)
  /\ (forall e, py_int (item row 3) = Raise e -> color spec = 0).
Proof.
  intros (row_idx & H).
  destruct (embed_of_row_parts _ _ _ H) as (_ & _ & _ & _ & _ & _ & Hc).
  destruct (Nat.ltb_spec 3 (length row)) as [Hlen|Hlen].
  - cbn [andb] in Hc.
    destruct (truthy (item row 3)) eqn:Ht.
    + destruct (py_int (item row 3)) as [z|e] eqn:Hi.
      * cbn in Hc. injection Hc as <-.
        split; [discriminate|]. split; [|discriminate].
        intros z' _ E; injection E as <-. reflexivity.
      * unfold try_except in Hc.
        destruct (existsb _ _); [|discriminate].
        injection Hc as <-.
        split; [discriminate|]. split; [discriminate | reflexivity].
    + cbn in Hc. injection Hc as <-.
      split; [reflexivity|]. split; [discriminate | reflexivity].
  - cbn in Hc. injection Hc as <-.
    split; [reflexivity|]. split; [|reflexivity].
    intros z Ht. rewrite item_beyond in Ht by lia. discriminate.
Qed.

(** ** Links *)

Lemma validate_url_Some (url : pyobj) (field_name : pystr) (row_idx : nat)
    (r : pystr) :
  validate_url url field_name row_idx = Some r ->
  truthy url = true /\ r = strip (py_str url) /\ http_scheme r.
Proof.
  unfold validate_url, http_scheme.
  destruct (truthy url); cbn [negb]; [|discriminate].
  destruct (nonempty (strip (py_str url))); cbn [negb]; [|discriminate].
  destruct (startswith (strip (py_str url)) (u "http://")) eqn:E1;
    destruct (startswith (strip (py_str url)) (u "https://")) eqn:E2;
    cbn [orb negb]; try discriminate;
    intros H; injection H as <-; rewrite ?E1, ?E2; auto.
Qed.

(** X5. A link that a specification records (title link from column
    2, author link from column 5) is the text of a truthy cell with
    the white space around it removed, and starts with [http://] or
    [https://]. *)
Theorem recorded_link_is_stripped_http_url
    (row : list pyobj) (spec : embed_spec) :
  built_from row spec ->
  (forall url, title_url spec = Some url ->
     truthy (item row 2) = true
     /\ url = strip (py_str (item row 2)) /\ http_scheme url)
  /\ (forall url, author_url spec = Some url ->
       truthy (item row 5) = true
       /\ url = strip (py_str (item row 5)) /\ http_scheme url).
Proof.
  intros (row_idx & H).
  destruct (embed_of_row_parts _ _ _ H) as (_ & _ & _ & _ & Ht & Ha & _).
  rewrite Ht, Ha. split; intros url E.
  - destruct (2 <? length row)%nat;
      [exact (validate_url_Some _ _ _ _ E) | discriminate].
  - destruct (5 <? length row)%nat;
      [exact (validate_url_Some _ _ _ _ E) | discriminate].
Qed.

Lemma lstrip_app_nonspace (l : pystr) (c : N) :
  isspace c = false -> lstrip (l ++ [c]) = lstrip l ++ [c].
Proof.
  intros Hc. induction l as [|a l IH]; simpl.
  - rewrite Hc. reflexivity.
  - destruct (isspace a); [exact IH | reflexivity].
Qed.

Lemma lstrip_head (s : pystr) :
  lstrip s = [] \/ exists c t, lstrip s = c :: t /\ isspace c = false.
Proof.
  induction s as [|a s IH]; simpl; [left; reflexivity|].
  destruct (isspace a) eqn:E; [exact IH|]. right. eauto.
Qed.

Lemma rstrip_cons_nonspace (c : N) (t : pystr) :
  isspace c = false -> rstrip (c :: t) = c :: rstrip t.
Proof.
  intros Hc. unfold rstrip. simpl rev.
  rewrite lstrip_app_nonspace by exact Hc. apply rev_unit.
Qed.

Lemma lstrip_idem (s : pystr) : lstrip (lstrip s) = lstrip s.
Proof.
  destruct (lstrip_head s) as [-> | (c & t & -> & Hc)]; [reflexivity|].
  simpl. rewrite Hc. reflexivity.
Qed.

Lemma rstrip_idem (s : pystr) : rstrip (rstrip s) = rstrip s.
Proof.
  unfold rstrip. rewrite rev_involutive, lstrip_idem. reflexivity.
Qed.

Lemma strip_idem (s : pystr) : strip (strip s) = strip s.
Proof.
  unfold strip.
  destruct (lstrip_head s) as [-> | (c & t & -> & Hc)]; [reflexivity|].
  rewrite rstrip_cons_nonspace by exact Hc.
  simpl lstrip. rewrite Hc.
  rewrite <- rstrip_cons_nonspace by exact Hc. apply rstrip_idem.
Qed.

(** X6. A link that [validate_url] accepts is a fixed point: it has no
    white space left around it, and validating it again, as a string,
    gives it back unchanged. *)
Theorem validate_url_idempotent
    (url : pyobj) (field_name : pystr) (row_idx : nat) (r : pystr) :
  validate_url url field_name row_idx = Some r ->
  strip r = r
  /\ forall field_name' row_idx',
       validate_url (PStr r) field_name' row_idx' = Some r.
Proof.
  intros H. apply validate_url_Some in H. destruct H as (_ & Hr & Hs).
  assert (Hstrip : strip r = r) by (rewrite Hr; apply strip_idem).
  split; [exact Hstrip|]. intros field_name' row_idx'.
  unfold validate_url. cbn [truthy py_str]. rewrite Hstrip.
  assert (Hne : nonempty r = true).
  { destruct r; [|reflexivity]. destruct Hs as [Hs | Hs]; discriminate. }
  rewrite Hne. cbn [negb].
  destruct Hs as [-> | ->]; cbn [orb negb];
    [reflexivity | rewrite Bool.orb_true_r; reflexivity].
Qed.

(** X7. A table in which every row has fewer than 7 columns gives the
    empty list of specifications and no exception, whatever the cells
    hold. *)
Theorem short_rows_give_no_tiles (data : list (list pyobj)) :
  (forall row, In row data -> has_7_columns row = false) ->
  parse_embed_data data = Ok [].
Proof.
  intros H. unfold parse_embed_data.
  destruct (negb (nonempty data) || (len data =? 0)); [reflexivity|].
  generalize 0%nat as row_idx.
  induction data as [|row data IH]; intros row_idx; [reflexivity|].
  cbn [parse_rows].
  assert (Hrow : has_7_columns row = false) by (apply H; left; reflexivity).
  unfold has_7_columns in Hrow. apply Nat.leb_gt in Hrow.
  replace (length row <? 7)%nat with true
    by (symmetry; apply Nat.ltb_lt; exact Hrow).
  apply IH. intros r Hr. apply H. right. exact Hr.
Qed.

Lemma py_int_raises_Exception (x : pyobj) (e : exn) :
  py_int x = Raise e -> is_Exception (exn_kind_of e) = true.
Proof.
  destruct x as [| b | z | f | s | l | d]; simpl; try discriminate;
    try (intros H; injection H as <-; reflexivity).
  - destruct f; simpl; try discriminate;
      intros H; injection H as <-; reflexivity.
  - destruct (int_of_str s); [discriminate|].
    intros H; injection H as <-; reflexivity.
Qed.

Lemma embed_of_row_raises_Exception (row_idx : nat) (row : list pyobj)
    (e : exn) :
  embed_of_row row_idx row = Raise e ->
  is_Exception (exn_kind_of e) = true.
Proof.
  unfold embed_of_row.
  destruct ((3 <? length row)%nat && truthy (item row 3)).
  - destruct (py_int (item row 3)) as [z|e0] eqn:Hi; [discriminate|].
    unfold try_except.
    destruct (existsb _ _); [discriminate|].
    cbn [bind]. intros H; injection H as <-.
    exact (py_int_raises_Exception _ _ Hi).
  - discriminate.
Qed.

Lemma parse_rows_raises_Exception (data : list (list pyobj)) (e : exn) :
  forall row_idx embeds,
    parse_rows row_idx data embeds = Raise e ->
    is_Exception (exn_kind_of e) = true.
Proof.
  induction data as [|row data IH]; intros row_idx embeds; simpl;
    [discriminate|].
  destruct (length row <? 7)%nat; [apply IH|].
  destruct (embed_of_row row_idx row) as [spec|e0] eqn:E; cbn [bind].
  - apply IH.
  - intros H; injection H as <-.
    exact (embed_of_row_raises_Exception _ _ _ E).
Qed.

(** What the builder raises is an [Exception]. *)
Lemma parse_embed_data_raises_Exception (data : list (list pyobj))
    (e : exn) :
  parse_embed_data data = Raise e -> is_Exception (exn_kind_of e) = true.
Proof.
  unfold parse_embed_data.
  destruct (negb (nonempty data) || (len data =? 0)); [discriminate|].
  apply parse_rows_raises_Exception.
Qed.

(** X22. On a table in which no colour cell is a float infinity, the
    builder raises nothing and returns exactly one specification for
    each row of 7 columns or more, in the order of the rows. *)
Theorem builder_total_without_infinity (data : list (list pyobj)) :
  (forall row, In row data -> color_converts row) ->
  exists specs,
    parse_embed_data data = Ok specs
    /\ Forall2 built_from (filter has_7_columns data) specs
    /\ length specs = length (filter has_7_columns data).
Proof.
  intros Hc.
  assert (H : exists specs, parse_embed_data data = Ok specs).
  { unfold parse_embed_data.
    destruct (negb (nonempty data) || (len data =? 0)).
    - eexists; reflexivity.
    - apply parse_rows_total. exact Hc. }
  destruct H as (specs & H). exists specs.
  pose proof (parse_embed_data_Ok _ _ H) as HF.
  split; [exact H|]. split; [exact HF|].
  symmetry. exact (Forall2_length HF).
Qed.

End BuilderMore.

(** ** The character total, in full *)

Section TotalMore.

Context {B : Builtins}.

Lemma scan_fields_over_limit (row : list pyobj) (idxs : list nat)
    (total_chars : Z) (fs : list field) :
  6000 < total_chars -> scan_fields row idxs total_chars fs = fs.
Proof.
  intros Ht. destruct idxs as [|field_idx idxs]; [reflexivity|].
  cbn [scan_fields]. unfold field_turn_at.
  destruct (length row <=? 7 + field_idx * 2)%nat; [reflexivity|].
  destruct (all_remaining_empty row (7 + field_idx * 2)); [reflexivity|].
  pose proof (len_nonneg (pair_name row field_idx)).
  pose proof (len_nonneg (pair_value row field_idx)).
  destruct (Z.gtb_spec
              (total_chars
               + (len (pair_name row field_idx)
                  + len (pair_value row field_idx))) 6000);
    [reflexivity | lia].
Qed.

(** X8. A specification never holds more than 6656 characters, and
    one that holds more than 6000 has no field at all: when title,
    description, footer and author alone pass the limit, every
    attachment of the row is dropped. *)
Theorem spec_chars_bound (row : list pyobj) (spec : embed_spec) :
  built_from row spec ->
  spec_chars spec <= 6656
  /\ (spec_chars spec <= 6000 \/ fields spec = []).
Proof.
  intros Hb.
  destruct (embed_of_row_caps row spec Hb) as (Ht & Hd & Hf & Ha & _).
  destruct Hb as (row_idx & Hb).
  assert (Hau : match author spec with Some a => len a | None => 0 end
                <= 256).
  { destruct (author spec) as [a|]; [apply Ha; reflexivity | lia]. }
  destruct (Z.le_gt_cases
              (len (title spec) + len (description spec) + len (footer spec)
               + match author spec with Some a => len a | None => 0 end)
              6000) as [Hle|Hgt].
  - pose proof (spec_chars_within_limit _ _ _ Hb Hle). split; [lia|].
    left. assumption.
  - assert (Hnil : fields spec = []).
    { rewrite (embed_of_row_fields _ _ _ Hb).
      apply scan_fields_over_limit. rewrite fixed_chars_sum. lia. }
    split; [|right; exact Hnil].
    unfold spec_chars. rewrite Hnil. unfold fields_chars. simpl. lia.
Qed.

End TotalMore.

(** ** The renderer *)

Section RendererMore.

Context {B : Builtins}.

Lemma str_or_nonempty (a : pystr) : 1 <= len (str_or a zwsp).
Proof.
  unfold str_or. destruct a as [|c a]; unfold len; simpl; lia.
Qed.

Lemma str_or_le (a : pystr) (n : Z) :
  1 <= n -> len a <= n -> len (str_or a zwsp) <= n.
Proof.
  unfold str_or. destruct a as [|c a]; simpl; [|auto].
  unfold len; simpl. lia.
Qed.

Lemma add_fields_filter_map (fs : list field) :
  add_fields fs
  = map (fun f =>
           EmbedField
             (str_or (if startswith (name f) [tilde]
                      then skipn 1 (name f) else name f) zwsp)
             (str_or (value f) zwsp)
             (negb (startswith (name f) [tilde])))
        (filter (fun f => nonempty (name f) || nonempty (value f)) fs).
Proof.
  induction fs as [|f fs IH]; [reflexivity|].
  cbn [add_fields filter]. unfold add_field_of.
  destruct (nonempty (name f)); destruct (nonempty (value f));
    cbn [negb andb orb map]; rewrite IH;
    destruct (startswith (name f) [tilde]); reflexivity.
Qed.

(** X9. The fields of an embed are those of the specification, in
    order, without the pairs whose name and value are both empty;
    each is inline unless its name starts with a tilde, and none has
    an empty name or an empty value. *)
Theorem rendered_fields_never_empty (spec : embed_spec) :
  let e := create_discord_embed spec in
  embed_fields e
  = map (fun f =>
           EmbedField
             (str_or (if startswith (name f) [tilde]
                      then skipn 1 (name f) else name f) zwsp)
             (str_or (value f) zwsp)
             (negb (startswith (name f) [tilde])))
        (filter (fun f => nonempty (name f) || nonempty (value f))
                (fields spec))
  /\ Forall (fun ef => field_name ef <> [] /\ field_value ef <> [])
            (embed_fields e).
Proof.
  cbn zeta. cbn [create_discord_embed embed_fields].
  rewrite add_fields_filter_map. split; [reflexivity|].
  apply Forall_forall. intros ef Hin. apply in_map_iff in Hin.
  destruct Hin as (f & <- & _). cbn [field_name field_value].
  split; intros E.
  - pose proof (str_or_nonempty
                  (if startswith (name f) [tilde]
                   then skipn 1 (name f) else name f)) as Hn.
    rewrite E in Hn. unfold len in Hn; simpl in Hn. lia.
  - pose proof (str_or_nonempty (value f)) as Hn.
    rewrite E in Hn. unfold len in Hn; simpl in Hn. lia.
Qed.

Lemma nonempty_len {A : Type} (l : list A) :
  nonempty l = true -> 1 <= len l.
Proof. destruct l; [discriminate|]. unfold len; simpl; lia. Qed.

Lemma or_None_Some (s t : pystr) :
  or_None s = Some t -> t = s /\ 1 <= len s.
Proof.
  unfold or_None. destruct (nonempty s) eqn:E; [|discriminate].
  intros H; injection H as <-. split; [reflexivity|].
  apply nonempty_len. exact E.
Qed.

Lemma len_skipn_le {A : Type} (n : nat) (l : list A) :
  len (skipn n l) <= len l.
Proof. unfold len. rewrite length_skipn. lia. Qed.

Lemma length_filter_le {A : Type} (f : A -> bool) (l : list A) :
  (length (filter f l) <= length l)%nat.
Proof.
  induction l as [|a l IH]; simpl; [lia|].
  destruct (f a); simpl; lia.
Qed.

(** X10. The embed rendered from a specification that the builder
    made meets the limits of each part of a Discord embed: a title,
    description, footer or author name that is present is not empty
    and has at most 256, 4096, 2048 and 256 characters, the title
    link starts with [http://] or [https://], and there are at most
    25 fields, each with a name of 1 to 256 and a value of 1 to 1024
    characters. *)
Theorem built_embed_within_part_limits (row : list pyobj) (spec : embed_spec) :
  built_from row spec ->
  let e := create_discord_embed spec in
  (forall t, embed_title e = Some t -> 1 <= len t <= 256)
  /\ (forall d, embed_description e = Some d -> 1 <= len d <= 4096)
  /\ (forall f, embed_footer e = Some f -> 1 <= len f <= 2048)
  /\ (forall n url, embed_author e = Some (n, url) -> 1 <= len n <= 256)
  /\ (forall url, embed_url e = Some url -> http_scheme url)
  /\ (length (embed_fields e) <= 25)%nat
  /\ Forall (fun ef => 1 <= len (field_name ef) <= 256
                       /\ 1 <= len (field_value ef) <= 1024)
            (embed_fields e).
Proof.
  intros Hb.
  destruct (embed_of_row_caps row spec Hb)
    as (Ht & Hd & Hf & Ha & Hn & Hfs).
  destruct Hb as (row_idx & Hb).
  destruct (embed_of_row_parts _ _ _ Hb) as (_ & _ & _ & _ & Hu & _).
  cbn zeta.
  cbn [create_discord_embed embed_title embed_description embed_footer
       embed_author embed_url embed_fields].
  split; [intros t E; apply or_None_Some in E; destruct E as (-> & E); lia|].
  split; [intros d E; apply or_None_Some in E; destruct E as (-> & E); lia|].
  split.
  { intros f. destruct (nonempty (footer spec)) eqn:E; [|discriminate].
    intros H; injection H as <-. apply nonempty_len in E. lia. }
  split.
  { intros n url. destruct (_ || _); [|discriminate].
    intros H; injection H as <- _. unfold opt_or.
    destruct (author spec) as [a|].
    - split; [apply str_or_nonempty|].
      apply str_or_le; [lia | apply Ha; reflexivity].
    - unfold len; simpl. lia. }
  split.
  { intros url E. rewrite Hu in E.
    destruct (2 <? length row)%nat; [|discriminate].
    apply validate_url_Some in E. tauto. }
  rewrite add_fields_filter_map. split.
  { rewrite length_map.
    pose proof (length_filter_le
                  (fun f => nonempty (name f) || nonempty (value f))
                  (fields spec)). lia. }
  apply Forall_forall. intros ef Hin. apply in_map_iff in Hin.
  destruct Hin as (f & <- & Hin). apply filter_In in Hin.
  destruct Hin as (Hin & _).
  rewrite Forall_forall in Hfs. destruct (Hfs f Hin) as (Hname & Hvalue).
  cbn [field_name field_value].
  split; (split; [apply str_or_nonempty|]); apply str_or_le; try lia.
  destruct (startswith (name f) [tilde]); [|exact Hname].
  pose proof (len_skipn_le 1 (name f)). lia.
Qed.

End RendererMore.

(** ** Sessions of a view *)

Section SessionFacts.

Variable World : Type.
Context {B : Builtins}.

Ltac run_step :=
  cbv [dispatch goto_top previous_page next_page goto_bottom refresh_data
       bindM get put await lift ret try_catch await_callback
       set_current_page set_embeds_spec set_total_pages set_children
       current_embed update_buttons edit_message
       well_formed buttons_in_sync has_callback one_response
       returned self_after calls
       embeds_spec current_page total_pages user_id refresh_callback
       children].

Lemma navigation_step (v : EmbedNavigationView World)
    (h : handler) (w : World) (interaction : Interaction) :
  h <> h_refresh_data ->
  well_formed v -> buttons_in_sync v ->
  step_ok v (dispatch h w interaction v).
Proof.
  intros Hh [Hn Hp] Hs. unfold step_ok, settled.
  destruct v as [specs p n uid cb items].
  unfold buttons_in_sync, has_callback in Hs. simpl in Hn, Hp, Hs.
  subst n.
  assert (Hget : forall q, 0 <= q < len specs ->
                           exists spec, py_getitem specs q = Ok spec)
    by (intros q; apply py_getitem_Ok).
  destruct h; try contradiction; run_step;
    (destruct (interaction_user_id interaction =? uid); cbn [negb];
     [|cbv beta iota;
       repeat match goal with |- _ /\ _ => split end;
       try reflexivity; try lia; try exact Hs;
       try (intros ? Hraise; discriminate Hraise);
       eexists; eexists; repeat split]);
    repeat match goal with
    | |- context [?a <? ?b] => destruct (Z.ltb_spec a b)
    | |- context [?a >? ?b] => destruct (Z.gtb_spec a b)
    end;
    try match goal with
    | |- context [py_getitem specs ?q] =>
        destruct (Hget q) as (spec & ->); [lia|]
    end;
    cbv beta iota;
    repeat match goal with |- _ /\ _ => split end;
    try reflexivity; try lia; try exact Hs;
    try (intros ? Hraise; discriminate Hraise);
    eexists; eexists; repeat split.
Qed.

Lemma len_cons {A : Type} (a : A) (l : list A) : len (a :: l) = len l + 1.
Proof. unfold len. simpl length. lia. Qed.

Ltac finish_step Hs :=
  cbv beta iota;
  repeat match goal with |- _ /\ _ => split end;
  try reflexivity; try lia; try exact Hs;
  try (intros ? Hraise;
       first [discriminate Hraise
             | injection Hraise as <-; assumption]);
  try (eexists; eexists; split; [reflexivity | split; reflexivity]).

Lemma refresh_step (v : EmbedNavigationView World)
    (w : World) (interaction : Interaction) :
  well_formed v -> buttons_in_sync v ->
  step_ok v (refresh_data w interaction v).
Proof.
  intros [Hn Hp] Hs. unfold step_ok, settled.
  destruct v as [specs p n uid cb items].
  unfold buttons_in_sync, has_callback in Hs. simpl in Hn, Hp, Hs.
  subst n. run_step.
  destruct (interaction_user_id interaction =? uid); cbn [negb];
    [|solve [finish_step Hs]].
  destruct cb as [f|]; [|solve [finish_step Hs]].
  destruct (f w) as [[[|c s]|]|e]; try solve [finish_step Hs];
    try solve [destruct (is_Exception (exn_kind_of e)) eqn:Hex;
               finish_step Hs].
  cbv beta iota.
  destruct (parse_json_cell (c :: s)) as [[|row data]|];
    try solve [finish_step Hs].
  cbv beta iota.
  destruct (parse_embed_data (row :: data)) as [[|spec new]|e] eqn:Hb;
    cbn [nonempty negb]; try solve [finish_step Hs];
    try solve [rewrite (parse_embed_data_raises_Exception _ _ Hb);
               finish_step Hs].
  cbv beta iota.
  pose proof (len_cons spec new) as Hlen.
  pose proof (len_nonneg new) as Hnew.
  destruct (Z.geb_spec p (len (spec :: new))) as [Hge|Hlt];
    match goal with
    | |- context [py_getitem ?l ?q] =>
        destruct (py_getitem_Ok l q) as (tile & ->); [lia|]
    end;
    finish_step Hs.
Qed.

Lemma dispatch_step (v : EmbedNavigationView World)
    (h : handler) (w : World) (interaction : Interaction) :
  well_formed v -> buttons_in_sync v ->
  step_ok v (dispatch h w interaction v).
Proof.
  intros Hw Hs.
  destruct h; try (apply navigation_step; [discriminate | exact Hw | exact Hs]).
  apply refresh_step; assumption.
Qed.

Lemma session_steps (events : list (event World)) :
  forall v,
    well_formed v -> buttons_in_sync v ->
    Forall (fun r => settled v r /\ one_response (calls r))
           (session events v).
Proof.
  induction events as [|e events IH]; intros v Hw Hs; [constructor|].
  cbn [session].
  destruct (dispatch_step v (pressed e) (source e) (presser e) Hw Hs)
    as (Hset & Hone).
  constructor; [split; assumption|].
  destruct Hset as (_ & Hw' & Hs' & Hu & Hc).
  specialize (IH _ Hw' Hs').
  eapply Forall_impl; [|exact IH].
  intros r ((Hr & Hrw & Hrs & Hru & Hrc) & Hro).
  split; [|exact Hro]. unfold settled.
  repeat match goal with |- _ /\ _ => split end; try assumption;
    congruence.
Qed.

(** X11. From a view that is well formed and whose buttons are in
    sync, as [display_embeds] makes them, every press of every button
    by anyone, in any order, whatever the data source holds and
    whatever its callback returns or raises, leaves a view that is
    again well formed and in sync, with the same owner and the same
    callback. No press lets an [Exception] out: no [IndexError] from
    the tiles, nothing from the parser or the builder; what can leave
    a handler is an exception that is not an [Exception], such as
    [asyncio.CancelledError], which [except Exception] does not catch.
    (The calls on the interaction are recorded: they do not fail
    here.) *)
Theorem session_keeps_invariant
    (v : EmbedNavigationView World) (events : list (event World)) :
  well_formed v -> buttons_in_sync v ->
  Forall (settled v) (session events v).
Proof.
  intros Hw Hs. eapply Forall_impl; [|exact (session_steps events v Hw Hs)].
  intros r [H _]. exact H.
Qed.

(** X12. In such a session every press is answered by exactly one
    call on [interaction.response] (a notice, an edit or a deferral),
    made before any other call. *)
Theorem session_one_response_each
    (v : EmbedNavigationView World) (events : list (event World)) :
  well_formed v -> buttons_in_sync v ->
  Forall (fun r => one_response (calls r)) (session events v).
Proof.
  intros Hw Hs. eapply Forall_impl; [|exact (session_steps events v Hw Hs)].
  intros r [_ H]. exact H.
Qed.

Lemma py_getitem_raises {A : Type} (l : list A) (i : Z) (e : exn) :
  py_getitem l i = Raise e ->
  e = Exn IndexError (u "list index out of range").
Proof.
  unfold py_getitem.
  destruct (_ || _).
  - intros H; injection H as <-. reflexivity.
  - destruct (nth_error _ _); [discriminate|].
    intros H; injection H as <-. reflexivity.
Qed.

(** [refresh_data], outcome by outcome. *)
Lemma refresh_data_cases (v : EmbedNavigationView World)
    (w : World) (interaction : Interaction) :
  let after calls := Run v ([response_defer false; refresh_callback_call]
                            ++ calls) (Ok tt) in
  let failed msg :=
    after [followup_send (cross_mark ++ u " Refresh failed: " ++ msg) true] in
  refresh_data w interaction v
  = if negb (interaction_user_id interaction =? user_id v) then rejected v
    else
      match refresh_callback v with
      | None => Run v [response_defer false] (Ok tt)
      | Some callback =>
          match callback w with
          | Raise e =>
              if is_Exception (exn_kind_of e) then failed (exn_msg e)
              else Run v [response_defer false; refresh_callback_call]
                       (Raise e)
          | Ok None | Ok (Some []) => failed (u "No data returned")
          | Ok (Some text) =>
              match parse_json_cell text with
              | None | Some [] => failed (u "Invalid JSON")
              | Some data =>
                  match parse_embed_data data with
                  | Raise e => failed (exn_msg e)
                  | Ok [] => after [edit_original_response no_data_embed None]
                  | Ok specs =>
                      let page :=
                        if current_page v >=? len specs
                        then len specs - 1 else current_page v in
                      match py_getitem specs page with
                      | Ok tile =>
                          let items :=
                            buttons_for page (len specs) true in
                          Run (View specs page (len specs) (user_id v)
                                    (refresh_callback v) items)
                              [response_defer false; refresh_callback_call;
                               edit_original_response
                                 (create_discord_embed tile) (Some items)]
                              (Ok tt)
                      | Raise e =>
                          Run (View specs page (len specs) (user_id v)
                                    (refresh_callback v) (children v))
                              [response_defer false; refresh_callback_call;
                               followup_send
                                 (cross_mark ++ u " Refresh failed: "
                                  ++ exn_msg e) true]
                              (Ok tt)
                      end
                  end
              end
          end
      end.
Proof.
  cbv zeta. destruct v as [specs p n uid cb items]. unfold rejected.
  run_step.
  destruct (interaction_user_id interaction =? uid); cbn [negb];
    [|reflexivity].
  destruct cb as [f|]; [|reflexivity].
  destruct (f w) as [[[|c s]|]|e]; try reflexivity.
  - cbv beta iota.
    destruct (parse_json_cell (c :: s)) as [[|row data]|]; try reflexivity.
    cbv beta iota.
    destruct (parse_embed_data (row :: data)) as [[|spec new]|e] eqn:Hb;
      cbn [nonempty negb]; try reflexivity.
    + cbv beta iota.
      destruct (p >=? len (spec :: new));
        match goal with
        | |- context [py_getitem ?l ?q] =>
            destruct (py_getitem l q) as [tile|e] eqn:Hg
        end;
        try reflexivity;
        rewrite (py_getitem_raises _ _ _ Hg); reflexivity.
    + rewrite (parse_embed_data_raises_Exception _ _ Hb). reflexivity.
  - destruct (is_Exception (exn_kind_of e)); reflexivity.
Qed.

(** X13. A refresh lets an exception out exactly when it is asked by
    the owner, the view has a callback, and the callback raises an
    exception that is not an [Exception], such as
    [asyncio.CancelledError]: that exception leaves unchanged, after
    the deferral and the call of the callback, with the view as it
    was. What the callback raises otherwise, and what the parser, the
    builder and the indexing of the tiles raise, is caught and
    reported. In every case the interaction is answered once, first,
    and the owner and the callback of the view stay as they were.
    (The calls on the interaction are recorded: they do not fail
    here.) *)
Theorem refresh_lets_out_only_non_Exceptions
    (v : EmbedNavigationView World) (w : World) (interaction : Interaction) :
  let r := refresh_data w interaction v in
  (forall e,
      returned r = Raise e <->
      is_Exception (exn_kind_of e) = false
      /\ interaction_user_id interaction = user_id v
      /\ exists callback,
           refresh_callback v = Some callback /\ callback w = Raise e)
  /\ (forall e,
        returned r = Raise e ->
        r = Run v [response_defer false; refresh_callback_call] (Raise e))
  /\ one_response (calls r)
  /\ user_id (self_after r) = user_id v
  /\ refresh_callback (self_after r) = refresh_callback v.
Proof.
  cbv zeta. rewrite refresh_data_cases. cbv zeta.
  destruct v as [specs p n uid cb items]. unfold rejected.
  cbn [user_id refresh_callback current_page children].
  assert (Hone : forall (a : action) rest,
             is_response a = true ->
             forallb (fun c => negb (is_response c)) rest = true ->
             one_response (a :: rest)).
  { intros a rest Ha Hrest. exists a, rest. auto. }
  destruct (Z.eqb_spec (interaction_user_id interaction) uid) as [Hu|Hu];
    cbn [negb].
  2: { cbn [returned calls self_after user_id refresh_callback].
       split; [|split; [|split; [|split]]]; try reflexivity.
       - intros e. split; [discriminate|]. intros (_ & Ho & _).
         contradiction.
       - intros e H. discriminate H.
       - apply Hone; reflexivity. }
  destruct cb as [f|].
  2: { cbn [returned calls self_after user_id refresh_callback].
       split; [|split; [|split; [|split]]]; try reflexivity.
       - intros e. split; [discriminate|].
         intros (_ & _ & cb' & Hcb & _). discriminate Hcb.
       - intros e H. discriminate H.
       - apply Hone; reflexivity. }
  destruct (f w) as [[[|c s]|]|e0] eqn:Hf.
  4: { destruct (is_Exception (exn_kind_of e0)) eqn:Hex;
         cbn [returned calls self_after user_id refresh_callback app].
       - split; [|split; [|split; [|split]]]; try reflexivity.
         + intros e. split; [discriminate|].
           intros (He & _ & cb' & Hcb & Hw). injection Hcb as <-.
           rewrite Hf in Hw. injection Hw as <-. congruence.
         + intros e H. discriminate H.
         + apply Hone; reflexivity.
       - split; [|split; [|split; [|split]]]; try reflexivity.
         + intros e. split.
           * intros H; injection H as <-.
             split; [exact Hex|]. split; [exact Hu|]. eauto.
           * intros (He & _ & cb' & Hcb & Hw). injection Hcb as <-.
             rewrite Hf in Hw. injection Hw as <-. reflexivity.
         + intros e H. injection H as <-. reflexivity.
         + apply Hone; reflexivity. }
  all: assert (Hnot : forall e,
                 ~ (is_Exception (exn_kind_of e) = false
                    /\ interaction_user_id interaction = uid
                    /\ exists callback,
                         Some f = Some callback /\ callback w = Raise e))
         by (intros e (_ & _ & cb' & Hcb & Hw); injection Hcb as <-;
             rewrite Hf in Hw; discriminate Hw).
  all: repeat match goal with
       | |- context [match parse_json_cell ?x with _ => _ end] =>
           destruct (parse_json_cell x) as [[|? ?]|]
       | |- context [match parse_embed_data ?x with _ => _ end] =>
           destruct (parse_embed_data x) as [[|? ?]|?]
       | |- context [match py_getitem ?l ?q with _ => _ end] =>
           destruct (py_getitem l q)
       end.
  all: cbn [returned calls self_after user_id refresh_callback app].
  all: (split; [|split; [|split; [|split]]]); try reflexivity;
       [ intros ex; split; [discriminate | intros H; destruct (Hnot ex H)]
       | intros ex H; discriminate H
       | apply Hone; reflexivity ].
Qed.

(** X14. A refresh by the owner whose text parses to a table on which
    the builder raises leaves the view as it was and reports the
    message of the exception; one whose table has no row of 7 columns
    or more leaves the view as it was and replaces the message by the
    notice that there is nothing to display, without buttons. *)
Theorem refresh_without_tiles
    (v : EmbedNavigationView World) (w : World) (interaction : Interaction)
    (callback : refresh_fn World) (json_string : pystr)
    (data : list (list pyobj)) :
  interaction_user_id interaction = user_id v ->
  refresh_callback v = Some callback ->
  callback w = Ok (Some json_string) ->
  json_string <> [] ->
  parse_json_cell json_string = Some data ->
  data <> [] ->
  (forall e,
      parse_embed_data data = Raise e ->
      refresh_data w interaction v
      = Run v [response_defer false; refresh_callback_call;
               followup_send
                 (cross_mark ++ u " Refresh failed: " ++ exn_msg e) true]
            (Ok tt))
  /\ ((forall row, In row data -> has_7_columns row = false) ->
      refresh_data w interaction v
      = Run v [response_defer false; refresh_callback_call;
               edit_original_response no_data_embed None]
            (Ok tt)).
Proof.
  intros Hu Hcb Hw Hjs Hparse Hdata.
  destruct json_string as [|c s]; [contradiction|].
  destruct data as [|row data]; [contradiction|].
  split.
  - intros e He. rewrite refresh_data_cases. cbv zeta.
    rewrite Hu, Z.eqb_refl. cbn [negb].
    rewrite Hcb, Hw, Hparse, He. reflexivity.
  - intros Hshort.
    assert (He : parse_embed_data (row :: data) = Ok []).
    { clear - Hshort. unfold parse_embed_data.
      cbn [nonempty negb orb].
      destruct (len (row :: data) =? 0); [reflexivity|].
      generalize 0%nat as row_idx. revert Hshort.
      generalize (row :: data) as rows. clear row data.
      induction rows as [|row rows IH]; intros Hshort row_idx;
        [reflexivity|].
      cbn [parse_rows].
      assert (Hrow : has_7_columns row = false)
        by (apply Hshort; left; reflexivity).
      unfold has_7_columns in Hrow. apply Nat.leb_gt in Hrow.
      replace (length row <? 7)%nat with true
        by (symmetry; apply Nat.ltb_lt; exact Hrow).
      apply IH. intros r Hr. apply Hshort. right. exact Hr. }
    rewrite refresh_data_cases. cbv zeta.
    rewrite Hu, Z.eqb_refl. cbn [negb].
    rewrite Hcb, Hw, Hparse, He. reflexivity.
Qed.

(** X15. On a well-formed view, a navigation button that
    [update_buttons] disables is one whose press by the owner would
    not change the page, and one that it enables is one whose press
    does. *)
Theorem disabled_button_would_not_move
    (v : EmbedNavigationView World) (w : World) (interaction : Interaction)
    (b : button) (h : handler) :
  well_formed v ->
  interaction_user_id interaction = user_id v ->
  In b (buttons_for (current_page v) (total_pages v) (has_callback v)) ->
  callback b = Some h ->
  h <> h_refresh_data ->
  (disabled b = true <->
   current_page (self_after (dispatch h w interaction v)) = current_page v).
Proof.
  intros [Hn Hp] Hu Hin Hcb Hh.
  destruct v as [specs p n uid cb items]. simpl in Hn, Hp, Hu.
  cbn [current_page total_pages] in Hin.
  subst n. unfold buttons_for in Hin. apply in_app_or in Hin.
  assert (Hget : forall q, 0 <= q < len specs ->
                           exists spec, py_getitem specs q = Ok spec)
    by (intros q; apply py_getitem_Ok).
  destruct Hin as [Hin | Hin].
  - cbn [In] in Hin.
    destruct Hin as [<- | [<- | [<- | [<- | [<- | []]]]]];
      cbn [callback] in Hcb; try discriminate;
      injection Hcb as <-; cbn [disabled]; run_step;
      rewrite Hu, Z.eqb_refl; cbn [negb];
      repeat match goal with
      | |- context [?a <? ?b] => destruct (Z.ltb_spec a b)
      | |- context [?a >? ?b] => destruct (Z.gtb_spec a b)
      end;
      try match goal with
      | |- context [py_getitem specs ?q] =>
          destruct (Hget q) as (spec & ->); [lia|]
      end;
      cbv beta iota;
      rewrite ?Z.eqb_eq, ?Z.leb_le; lia.
  - destruct (has_callback _); cbn [In] in Hin; [|contradiction].
    destruct Hin as [<- | []]. cbn [callback] in Hcb.
    injection Hcb as <-. contradiction.
Qed.

End SessionFacts.

(** ** Expiry *)

Section TimeoutFacts.

Variable World : Type.

Lemma py_getitem_nth {A : Type} (l : list A) (i : Z) (a : A) :
  0 <= i < len l ->
  nth_error l (Z.to_nat i) = Some a -> py_getitem l i = Ok a.
Proof.
  intros H E. unfold py_getitem.
  destruct (Z.ltb_spec i 0); [lia|].
  destruct (Z.ltb_spec i 0); [lia|].
  destruct (Z.leb_spec (len l) i); [lia|]. simpl. rewrite E. reflexivity.
Qed.

(** X16. When a view expires, nothing is raised. If its message is
    known and [tile] is the tile at the current page, the message is
    edited once, without buttons, to the embed of that tile with the
    expiry notice appended to the footer of the tile, that is 64
    characters more; if the message is not known, nothing is done. *)
Theorem on_timeout_appends_notice
    (v : EmbedNavigationView World) (tile : embed_spec) :
  0 <= current_page v < len (embeds_spec v) ->
  nth_error (embeds_spec v) (Z.to_nat (current_page v)) = Some tile ->
  on_timeout true v
  = ([message_edit
        (set_footer (create_discord_embed tile)
                    (footer tile ++ expired_notice))
        None],
     Ok tt)
  /\ len (footer tile ++ expired_notice) = len (footer tile) + 64
  /\ on_timeout false v = ([], Ok tt).
Proof.
  intros Hp Hnth. split; [|split].
  - unfold on_timeout. rewrite (py_getitem_nth _ _ _ Hp Hnth).
    cbn [create_discord_embed embed_footer].
    destruct (footer tile) as [|c f]; reflexivity.
  - unfold len. rewrite length_app.
    change (length expired_notice) with 64%nat. lia.
  - reflexivity.
Qed.

(** The coroutine returns, whatever the view. *)
Lemma on_timeout_returns (has_message : bool)
    (v : EmbedNavigationView World) :
  snd (on_timeout has_message v) = Ok tt.
Proof.
  unfold on_timeout. destruct has_message; [|reflexivity].
  destruct (py_getitem _ _); reflexivity.
Qed.

End TimeoutFacts.

(** ** The entry point *)

Section EntryFacts.

Variable World : Type.
Context {B : Builtins}.

Lemma new_view_settled (specs : list embed_spec) (uid : Z)
    (cb : option (refresh_fn World)) :
  specs <> [] ->
  let v := new_view specs 0 uid cb in
  well_formed v /\ buttons_in_sync v
  /\ embeds_spec v = specs /\ current_page v = 0
  /\ user_id v = uid /\ refresh_callback v = cb.
Proof.
  intros Hne. cbv zeta.
  unfold well_formed, buttons_in_sync, has_callback, new_view.
  cbv [update_buttons bindM get put set_children self_after
       embeds_spec current_page total_pages user_id refresh_callback
       children].
  destruct specs as [|spec specs]; [contradiction|].
  pose proof (len_cons spec specs). pose proof (len_nonneg specs).
  repeat match goal with |- _ /\ _ => split end; try reflexivity; lia.
Qed.

Lemma py_getitem_first {A : Type} (a : A) (l : list A) :
  py_getitem (a :: l) 0 = Ok a.
Proof.
  apply py_getitem_nth; [|reflexivity].
  pose proof (len_cons a l). pose proof (len_nonneg l). lia.
Qed.

(** How [display_embeds] unfolds, case by case. *)
Lemma display_embeds_cases (w : World) (interaction : Interaction)
    (json_string : option pystr) (cb : option (refresh_fn World)) :
  let fetch :=
    if fetches json_string cb then [refresh_callback_call] else [] in
  let failed description :=
    (fetch ++ [followup_send_embed (error_embed description) None true],
     @Ok (option (EmbedNavigationView World)) None) in
  display_embeds w interaction json_string cb
  = match initial_text w json_string cb with
    | Raise e =>
        if is_Exception (exn_kind_of e)
        then failed (u "Failed to fetch data:" ++ [10%N] ++ exn_msg e)
        else (fetch, Raise e)
    | Ok None | Ok (Some []) => failed (u "No data provided")
    | Ok (Some text) =>
        match parse_json_cell text with
        | None | Some [] => failed (u "Failed to parse JSON data")
        | Some data =>
            match parse_embed_data data with
            | Raise e => (fetch, Raise e)
            | Ok [] =>
                (fetch ++ [followup_send_embed no_data_embed None true],
                 Ok None)
            | Ok (spec :: rest) =>
                let v := new_view (spec :: rest) 0
                           (interaction_user_id interaction) cb in
                (fetch ++
                 [followup_send_embed (create_discord_embed spec)
                                      (Some (children v)) true],
                 Ok (Some v))
            end
        end
    end.
Proof.
  cbv zeta. unfold display_embeds, initial_text, fetches.
  destruct cb as [callback|].
  - destruct (negb (opt_truthy json_string)) eqn:Ej.
    + destruct (callback w) as [[[|c s]|]|e]; try reflexivity.
      destruct (parse_json_cell (c :: s)) as [[|row data]|];
        try reflexivity.
      destruct (parse_embed_data (row :: data)) as [[|spec rest]|e];
        reflexivity.
    + destruct json_string as [[|c s]|]; try discriminate Ej.
      destruct (parse_json_cell (c :: s)) as [[|row data]|];
        try reflexivity.
      destruct (parse_embed_data (row :: data)) as [[|spec rest]|e];
        reflexivity.
  - destruct json_string as [[|c s]|]; try reflexivity.
    destruct (parse_json_cell (c :: s)) as [[|row data]|];
      try reflexivity.
    destruct (parse_embed_data (row :: data)) as [[|spec rest]|e];
      reflexivity.
Qed.

(** X17. The view that [display_embeds] attaches is well formed and
    its buttons are in sync; it shows the first tile, belongs to the
    user of the interaction and holds the callback that was passed;
    the one message sent carries the embed of the first tile and the
    buttons of the view. *)
Theorem display_embeds_view (w : World) (interaction : Interaction)
    (json_string : option pystr) (cb : option (refresh_fn World))
    (sent : list action) (v : EmbedNavigationView World) :
  display_embeds w interaction json_string cb = (sent, Ok (Some v)) ->
  well_formed v /\ buttons_in_sync v
  /\ current_page v = 0
  /\ user_id v = interaction_user_id interaction
  /\ refresh_callback v = cb
  /\ exists tile rest,
       embeds_spec v = tile :: rest
       /\ sent
          = (if fetches json_string cb then [refresh_callback_call] else [])
            ++ [followup_send_embed (create_discord_embed tile)
                                    (Some (children v)) true].
Proof.
  rewrite display_embeds_cases. cbv zeta.
  destruct (initial_text w json_string cb) as [[[|c s]|]|e];
    try discriminate;
    try (destruct (is_Exception (exn_kind_of e)); discriminate).
  destruct (parse_json_cell (c :: s)) as [[|row data]|]; try discriminate.
  destruct (parse_embed_data (row :: data)) as [[|tile rest]|e];
    try discriminate.
  intros H. injection H as <- <-.
  destruct (new_view_settled (tile :: rest)
              (interaction_user_id interaction) cb)
    as (Hw & Hs & He & Hp & Hu & Hc); [discriminate|].
  repeat match goal with |- _ /\ _ => split end; try assumption.
  exists tile, rest. split; [exact He | reflexivity].
Qed.

(** X18. [display_embeds] awaits the callback exactly when it is given
    no text and a callback; after that it sends exactly one message,
    always ephemeral, with buttons exactly when a view is attached;
    when the builder raises, it sends nothing. *)
Theorem display_embeds_sends_one_message (w : World)
    (interaction : Interaction) (json_string : option pystr)
    (cb : option (refresh_fn World)) :
  let fetch :=
    if fetches json_string cb then [refresh_callback_call] else [] in
  match display_embeds w interaction json_string cb with
  | (sent, Ok (Some v)) =>
      exists embed,
        sent = fetch ++ [followup_send_embed embed (Some (children v)) true]
  | (sent, Ok None) =>
      exists embed, sent = fetch ++ [followup_send_embed embed None true]
  | (sent, Raise _) => sent = fetch
  end.
Proof.
  rewrite display_embeds_cases. cbv zeta.
  destruct (initial_text w json_string cb) as [[[|c s]|]|e];
    try (eexists; reflexivity);
    try (destruct (is_Exception (exn_kind_of e));
         [eexists; reflexivity | reflexivity]).
  destruct (parse_json_cell (c :: s)) as [[|row data]|];
    try (eexists; reflexivity).
  destruct (parse_embed_data (row :: data)) as [[|tile rest]|e];
    [eexists; reflexivity | eexists; reflexivity | reflexivity].
Qed.


(** X20. A text that parses to the empty table is handled as a text
    that does not parse: [display_embeds] answers with the error
    "Failed to parse JSON data" and a refresh with "Invalid JSON"; the
    notice "No Data" is for tables whose rows are all too short. *)
Theorem empty_table_is_a_parse_failure (w : World)
    (interaction : Interaction) (text : pystr)
    (cb : option (refresh_fn World)) :
  text <> [] ->
  parse_json_cell text = Some [] ->
  display_embeds w interaction (Some text) cb
  = ([followup_send_embed (error_embed (u "Failed to parse JSON data"))
                          None true],
     Ok None)
  /\ (forall v callback,
        interaction_user_id interaction = user_id v ->
        refresh_callback v = Some callback ->
        callback w = Ok (Some text) ->
        refresh_data w interaction v
        = Run v [response_defer false; refresh_callback_call;
                 followup_send
                   (cross_mark ++ u " Refresh failed: Invalid JSON") true]
              (Ok tt)).
Proof.
  intros Hne Hp. destruct text as [|c s]; [contradiction|]. split.
  - rewrite display_embeds_cases. cbv zeta.
    unfold initial_text, fetches.
    destruct cb; cbn [opt_truthy nonempty negb]; rewrite Hp; reflexivity.
  - intros v callback Hu Hc Hw.
    destruct v as [specs p n uid f items]. simpl in Hu, Hc. subst f.
    cbv [refresh_data bindM get put await try_catch await_callback
         user_id refresh_callback].
    rewrite Hu, Z.eqb_refl; cbn [negb].
    rewrite Hw. cbv beta iota. rewrite Hp. reflexivity.
Qed.

End EntryFacts.

(** ** The test bot *)


(* ================================================================= *)
(** * The further statements on concrete inputs *)

Lemma rich_row_built : built_from (B := sample_builtins) rich_row rich_spec.
Proof. exists 0%nat. vm_compute. reflexivity. Defined.

Lemma sample_view_in_sync : buttons_in_sync (sample_view 3 1).
Proof. vm_compute. reflexivity. Defined.

Lemma built_spec_within_caps_witness :
  len (title rich_spec) <= 256
  /\ (length (fields rich_spec) <= 25)%nat.
Proof.
  destruct (built_spec_within_caps (B := sample_builtins)
              rich_row rich_spec rich_row_built)
    as (Ht & _ & _ & _ & Hn & _).
  split; [exact Ht | exact Hn].
Defined.

Lemma fields_are_leading_pairs_witness :
  exists k,
    (k <= 25)%nat
    /\ fields rich_spec
       = map (pair_at (B := sample_builtins) rich_row) (seq 0 k).
Proof.
  exact (fields_are_leading_pairs (B := sample_builtins)
           rich_row rich_spec rich_row_built).
Defined.

Lemma field_has_truthy_column_after_witness : worth_scanning rich_row 0.
Proof.
  apply (field_has_truthy_column_after (B := sample_builtins)
           rich_row rich_spec rich_row_built 0%nat).
  vm_compute. lia.
Defined.

Lemma color_is_int_or_zero_witness : color rich_spec = 255.
Proof.
  destruct (color_is_int_or_zero (B := sample_builtins)
              rich_row rich_spec rich_row_built) as (_ & H & _).
  apply H; reflexivity.
Defined.

Lemma recorded_link_is_stripped_http_url_witness :
  u "https://x.org" = strip (u " https://x.org ")
  /\ http_scheme (u "https://x.org").
Proof.
  destruct (recorded_link_is_stripped_http_url (B := sample_builtins)
              rich_row rich_spec rich_row_built) as (H & _).
  destruct (H (u "https://x.org") eq_refl) as (_ & Hs & Hh).
  split; [exact Hs | exact Hh].
Defined.

Lemma validate_url_idempotent_witness :
  validate_url (B := sample_builtins) (PStr (u "https://x.org"))
               (u "AuthorURL") 3
  = Some (u "https://x.org").
Proof.
  apply (validate_url_idempotent (B := sample_builtins)
           (cell " https://x.org ") (u "TitleURL") 0 (u "https://x.org")).
  vm_compute. reflexivity.
Defined.

Lemma short_rows_give_no_tiles_witness :
  parse_embed_data (B := sample_builtins)
    [[cell "a"; cell "b"]; []; [PFloat (FInf false)]] = Ok [].
Proof.
  apply (short_rows_give_no_tiles (B := sample_builtins)).
  intros row [<- | [<- | [<- | []]]]; reflexivity.
Defined.

Lemma spec_chars_bound_witness : spec_chars rich_spec <= 6656.
Proof.
  apply (spec_chars_bound (B := sample_builtins)
           rich_row rich_spec rich_row_built).
Defined.

Lemma builder_total_without_infinity_witness :
  exists specs,
    parse_embed_data (B := sample_builtins) [[cell "short"]; rich_row]
    = Ok specs
    /\ Forall2 (built_from (B := sample_builtins))
               (filter has_7_columns [[cell "short"]; rich_row]) specs
    /\ length specs
       = length (filter has_7_columns [[cell "short"]; rich_row]).
Proof.
  apply (builder_total_without_infinity (B := sample_builtins)).
  intros row [<- | [<- | []]] negative; discriminate.
Defined.

Lemma built_embed_within_part_limits_witness :
  (length (embed_fields (create_discord_embed rich_spec)) <= 25)%nat.
Proof.
  apply (built_embed_within_part_limits (B := sample_builtins)
           rich_row rich_spec rich_row_built).
Defined.

Lemma session_keeps_invariant_witness :
  Forall (settled (sample_view 3 1))
         (session (B := sample_builtins) sample_presses (sample_view 3 1)).
Proof.
  exact (session_keeps_invariant (B := sample_builtins) _
           (sample_view 3 1) sample_presses
           sample_view_well_formed sample_view_in_sync).
Defined.

Lemma session_one_response_each_witness :
  Forall (fun r => one_response (calls r))
         (session (B := sample_builtins) sample_presses (sample_view 3 1)).
Proof.
  exact (session_one_response_each (B := sample_builtins) _
           (sample_view 3 1) sample_presses
           sample_view_well_formed sample_view_in_sync).
Defined.

Lemma disabled_button_would_not_move_witness :
  current_page
    (self_after
       (dispatch (B := sample_builtins) h_next_page (Ok None)
          (MkInteraction 7) (sample_view 3 2)))
  = current_page (sample_view 3 2).
Proof.
  apply (disabled_button_would_not_move (B := sample_builtins) _
           (sample_view 3 2) (Ok None) (MkInteraction 7)
           (Button (u ">") primary true (Some h_next_page)) h_next_page).
  - split; [reflexivity|]. split; [discriminate | reflexivity].
  - reflexivity.
  - vm_compute. right. right. right. left. reflexivity.
  - reflexivity.
  - discriminate.
  - reflexivity.
Defined.

Lemma refresh_without_tiles_witness :
  refresh_data (B := sample_builtins) (Ok (Some (u "[[]]")))
    (MkInteraction 7) (sample_view 3 1)
  = Run (sample_view 3 1)
        [response_defer false; refresh_callback_call;
         edit_original_response no_data_embed None]
        (Ok tt).
Proof.
  apply (refresh_without_tiles (B := sample_builtins) _
           (sample_view 3 1) (Ok (Some (u "[[]]"))) (MkInteraction 7)
           (fun w => w) (u "[[]]") [[]]).
  - reflexivity.
  - reflexivity.
  - reflexivity.
  - discriminate.
  - vm_compute. reflexivity.
  - discriminate.
  - intros row [<- | []]. reflexivity.
Defined.

Lemma on_timeout_appends_notice_witness :
  on_timeout true (sample_view 3 1)
  = ([message_edit
        (set_footer (create_discord_embed sample_spec)
                    (u "F" ++ expired_notice))
        None],
     Ok tt).
Proof.
  apply (on_timeout_appends_notice _ (sample_view 3 1) sample_spec).
  - split; [discriminate | reflexivity].
  - reflexivity.
Defined.

Lemma display_embeds_view_witness :
  well_formed
    (new_view (World := result (option pystr)) [sample_spec] 0 7 None).
Proof.
  apply (display_embeds_view (B := sample_builtins) _
           (Ok None) (MkInteraction 7) (Some scenario_text) None
           [followup_send_embed (create_discord_embed sample_spec)
              (Some (children
                       (new_view (World := result (option pystr))
                                 [sample_spec] 0 7 None)))
              true]).
  vm_compute. reflexivity.
Defined.

Lemma empty_table_is_a_parse_failure_witness :
  display_embeds (B := sample_builtins) (Ok None : sheet)
    (MkInteraction 7) (Some (u "[]")) None
  = ([followup_send_embed (error_embed (u "Failed to parse JSON data"))
                          None true],
     Ok None).
Proof.
  apply (empty_table_is_a_parse_failure (B := sample_builtins) sheet).
  - discriminate.
  - vm_compute. reflexivity.
Defined.


(** A refresh by the owner while the callback is cancelled: the
    cancellation leaves the handler. *)
Lemma refresh_lets_out_only_non_Exceptions_witness :
  returned
    (refresh_data (B := sample_builtins)
       (Raise (Exn CancelledError []) : sheet)
       (MkInteraction 7) (sample_view 3 1))
  = Raise (Exn CancelledError []).
Proof.
  destruct (refresh_lets_out_only_non_Exceptions (B := sample_builtins) _
              (sample_view 3 1) (Raise (Exn CancelledError []))
              (MkInteraction 7))
    as (Hraises & _).
  apply Hraises. split; [reflexivity|]. split; [reflexivity|].
  exists (fun w => w). split; reflexivity.
Defined.

